(** * A shallow embedding of the RUM browser agent

    The repository ships three variants of one telemetry script:
    - the current agent (the script with the session lifecycle, a separate
      errors endpoint and keepalive requests), embedded in [Module Rum];
    - [rum-sass.js], first script (configurable endpoints, no session
      lifecycle), embedded in [Module RumSass];
    - [rum-sass.js], second script (one hard-wired endpoint, everything is
      sent through [sendMetrics]), embedded in [Module RumLegacy].

    The passive observers and [collectResourceMetrics] are the same text in
    the three scripts and are embedded once, in [Module Observers].

    JavaScript numbers are modelled as rationals ([Q]) where a property
    reads only how they are stored, compared or handed on.  Where a
    property reads the result of arithmetic (the layout-shift score the
    script accumulates, the first-input delay) they are binary64 doubles,
    with the rounded IEEE-754 operations of primitive floats.  Strings
    whose characters depend on the engine (ISO dates, printed numbers) are
    kept symbolic. *)

From Stdlib Require Import List String Ascii Bool Arith ZArith QArith Lia Lqa.
From Stdlib Require Import PrimFloat SpecFloat FloatOps.
Import ListNotations.

Set Warnings "-register-all".

Local Open Scope string_scope.
Local Open Scope list_scope.

(* ================================================================== *)
(** ** JavaScript values *)
(* ================================================================== *)

Module Js.

Inductive JsVal : Type :=
  | JUndefined
  | JNull
  | JBool (b : bool)
  | JNum (q : Q)
  | JStr (s : string)
  | JIso (ms : Q)                 (* the string [new Date(ms).toISOString()] *)
  | JNumStr (q : Q)               (* the string [String(q)] of a number *)
  | JError (name message : string) (stack : JsVal)   (* an Error instance *)
  | JObj (props : list (string * JsVal)).            (* a plain object *)

(** Own enumerable string-keyed properties, in insertion order. *)
Definition Obj := list (string * JsVal).

(** ToBoolean. *)
Definition truthy (v : JsVal) : bool :=
  match v with
  | JUndefined | JNull => false
  | JBool b => b
  | JNum q => negb (Qeq_bool q 0)
  | JStr s => negb (String.eqb s "")
  | JIso _ | JNumStr _ => true
  | JError _ _ _ | JObj _ => true
  end.

(** [a || b]. *)
Definition js_or (a b : JsVal) : JsVal := if truthy a then a else b.

(** [o[k]] on a plain object: the first binding of [k], else undefined. *)
Fixpoint obj_get (o : Obj) (k : string) : JsVal :=
  match o with
  | [] => JUndefined
  | (k', v) :: rest => if String.eqb k' k then v else obj_get rest k
  end.

(** [o[k] = v]: an existing key keeps its position, a new key goes last. *)
Fixpoint obj_set (o : Obj) (k : string) (v : JsVal) : Obj :=
  match o with
  | [] => [(k, v)]
  | (k', v') :: rest =>
      if String.eqb k' k then (k', v) :: rest
      else (k', v') :: obj_set rest k v
  end.

(** [{ ...target, ...source }] where [target] is the literal built so
    far: the properties of [source] are defined on it one by one. *)
Definition obj_spread (target source : Obj) : Obj :=
  fold_left (fun acc kv => obj_set acc (fst kv) (snd kv)) source target.


(** [v.k]: reading a property of null or undefined throws; only the
    properties the scripts read are modelled on Error instances, and
    primitives have none of them. *)
Definition get_prop (v : JsVal) (k : string) : option JsVal :=
  match v with
  | JUndefined | JNull => None
  | JObj o => Some (obj_get o k)
  | JError n m st =>
      Some (if String.eqb k "message" then JStr m
            else if String.eqb k "name" then JStr n
            else if String.eqb k "stack" then st
            else JUndefined)
  | _ => Some JUndefined
  end.

(** [v?.k]. *)
Definition get_prop_opt (v : JsVal) (k : string) : JsVal :=
  match get_prop v k with
  | Some r => r
  | None => JUndefined
  end.

(** [String(v)]; for an Error instance this is Error.prototype.toString. *)
Definition js_String (v : JsVal) : JsVal :=
  match v with
  | JUndefined => JStr "undefined"
  | JNull => JStr "null"
  | JBool true => JStr "true"
  | JBool false => JStr "false"
  | JNum q => JNumStr q
  | JStr _ | JIso _ | JNumStr _ => v
  | JError n m _ =>
      if String.eqb n "" then JStr m
      else if String.eqb m "" then JStr n
      else JStr (String.append n (String.append ": " m))
  | JObj _ => JStr "[object Object]"
  end.

(** The TypeError raised by [v.k] when [v] is null or undefined (the
    message text is the engine's). *)
Definition TypeError_nullish_read (k : string) : JsVal :=
  JError "TypeError"
         (String.append "Cannot read properties of null or undefined (reading '"
            (String.append k "')"))
         JUndefined.

Definition upper_ascii (c : ascii) : ascii :=
  let n := nat_of_ascii c in
  if andb (Nat.leb 97 n) (Nat.leb n 122) then ascii_of_nat (n - 32) else c.

(** [s.toUpperCase()] on ASCII. *)
Fixpoint toUpperCase (s : string) : string :=
  match s with
  | EmptyString => EmptyString
  | String c rest => String (upper_ascii c) (toUpperCase rest)
  end.

End Js.

(* ================================================================== *)
(** ** The browser: delivery primitives, promises, XMLHttpRequest *)
(* ================================================================== *)

Module Browser.
Import Js.

(** What leaves the page: one call of [navigator.sendBeacon] or of the
    global [fetch] made by the agent itself.  A log lists what a handler
    sends directly.  (Once the fetch shim is installed the global [fetch]
    is the wrapper, so a [FetchRequest] delivery is an instrumented call
    of its own and gets its own record when it settles.) *)
Inductive Transport :=
  | SendBeacon
  | FetchRequest (keepalive : bool).

Record Delivery := mkDelivery {
  via : Transport;
  url : string;
  body : Obj          (* the payload that is JSON-serialised *)
}.

Definition trigger_of (d : Delivery) : JsVal := obj_get (body d) "trigger".

Definition has_trigger (t : string) (d : Delivery) : bool :=
  match trigger_of d with
  | JStr s => String.eqb s t
  | _ => false
  end.

Definition count_trigger (t : string) (log : list Delivery) : nat :=
  List.length (filter (has_trigger t) log).

(** The first argument of [fetch]: a string, or an object (a Request has
    a [url], a URL object has none). *)
Inductive FetchInput :=
  | InputString (s : string)
  | InputObject (o : Obj).

(** The members of [init] the wrappers read or write; every other member
    is handed on untouched. *)
Record FetchInit := mkInit {
  init_method : option string;
  init_headers : option Obj
}.

Record Response := mkResponse { status : Z }.

(** How the promise returned by a fetch function settles. *)
Inductive Outcome :=
  | Resolved (r : Response)
  | Rejected (reason : JsVal).

(** A fetch function as the page sees it.  The two numbers are what
    [performance.now()] returns when the call is made and when its
    promise settles; the result is the telemetry sent on the way and the
    outcome the caller observes. *)
Definition FetchFn :=
  Q -> Q -> FetchInput -> option FetchInit -> list Delivery * Outcome.

(** The platform's own [fetch]: no telemetry; [net] decides the outcome
    from the request it is actually given. *)
Definition native_fetch (net : FetchInput -> FetchInit -> Outcome) : FetchFn :=
  fun _ _ input init =>
    ([], net input (match init with
                    | Some i => i
                    | None => mkInit None None
                    end)).

Inductive XhrEvent := ReadyStateChange | LoadEnd.

Definition XhrEvent_eqb (a b : XhrEvent) : bool :=
  match a, b with
  | ReadyStateChange, ReadyStateChange => true
  | LoadEnd, LoadEnd => true
  | _, _ => false
  end.

(** One request on an XMLHttpRequest object: when and how it is opened,
    when it is over and with which status. *)
Record XhrCall := mkXhrCall {
  xc_tOpen : Q;
  xc_method : option string;
  xc_url : string;
  xc_tEnd : Q;
  xc_status : Z
}.

Section Xhr.

(** [R]: the expando [_reqData] a script hangs on the object;
    [L]: the closures a script registers as listeners. *)
Variables R L : Type.

Record Xhr := mkXhr {
  reqData : option R;
  listeners : list (XhrEvent * L);
  readyState : Z;
  xhr_status : Z;
  (* the calls of setRequestHeader that were accepted, in order *)
  requestHeaders : list (string * JsVal)
}.

Definition new_xhr : Xhr := mkXhr None [] 0 0 [].

Definition set_reqData (x : Xhr) (r : R) : Xhr :=
  mkXhr (Some r) (listeners x) (readyState x) (xhr_status x) (requestHeaders x).

(** [x.addEventListener(evt, l)] with a fresh closure. *)
Definition addEventListener (x : Xhr) (evt : XhrEvent) (l : L) : Xhr :=
  mkXhr (reqData x) (listeners x ++ [(evt, l)]) (readyState x)
        (xhr_status x) (requestHeaders x).

(** [x.setRequestHeader(name, value)]: throws unless the state is OPENED
    ([None]). *)
Definition setRequestHeader (x : Xhr) (name : string) (value : JsVal)
  : option Xhr :=
  if Z.eqb (readyState x) 1 then
    Some (mkXhr (reqData x) (listeners x) (readyState x) (xhr_status x)
                (requestHeaders x ++ [(name, value)]))
  else None.

(** How a listener runs: the time, the object it is called on, the object
    afterwards and the telemetry it sent. *)
Variable run : L -> Q -> Xhr -> Xhr * list Delivery.

Fixpoint run_all (ls : list (XhrEvent * L)) (evt : XhrEvent) (now : Q)
         (x : Xhr) : Xhr * list Delivery :=
  match ls with
  | [] => (x, [])
  | (e, l) :: rest =>
      if XhrEvent_eqb e evt then
        let '(x1, log1) := run l now x in
        let '(x2, log2) := run_all rest evt now x1 in
        (x2, log1 ++ log2)
      else run_all rest evt now x
  end.

(** Dispatch of [evt] on [x]: the listeners registered at that moment run
    in registration order. *)
Definition fire (evt : XhrEvent) (now : Q) (x : Xhr) : Xhr * list Delivery :=
  run_all (listeners x) evt now x.

(** An [open] function: time, method, url, the object. *)
Definition OpenFn := Q -> option string -> string -> Xhr -> Xhr * list Delivery.

(** The platform's [open]: the request headers are emptied and, when the
    state was not OPENED already, it becomes OPENED and readystatechange
    is fired. *)
Definition native_open : OpenFn :=
  fun now _ _ x =>
    let x1 := mkXhr (reqData x) (listeners x) 1 0 [] in
    if Z.eqb (readyState x) 1 then (x1, []) else fire ReadyStateChange now x1.

(** The request is over with status [st] (0 when there was no response):
    state DONE, readystatechange, then loadend. *)
Definition complete (now : Q) (st : Z) (x : Xhr) : Xhr * list Delivery :=
  let x1 := mkXhr (reqData x) (listeners x) 4 st (requestHeaders x) in
  let '(x2, log1) := fire ReadyStateChange now x1 in
  let '(x3, log2) := fire LoadEnd now x2 in
  (x3, log1 ++ log2).

(** A request made through [open] on an object that may have been used
    before: the object when the request is over and what was sent. *)
Definition xhr_call (open : OpenFn) (x : Xhr) (r : XhrCall)
  : Xhr * list Delivery :=
  let '(x1, log1) := open (xc_tOpen r) (xc_method r) (xc_url r) x in
  let '(x2, log2) := complete (xc_tEnd r) (xc_status r) x1 in
  (x2, log1 ++ log2).

(** Requests made one after the other on the same object, each one over
    before the next is opened: for each request, the object when it is
    over and what it sent. *)
Fixpoint xhr_calls (open : OpenFn) (x : Xhr) (rs : list XhrCall)
  : list (Xhr * list Delivery) :=
  match rs with
  | [] => []
  | r :: rest =>
      let result := xhr_call open x r in
      result :: xhr_calls open (fst result) rest
  end.

End Xhr.

Arguments reqData {R L} _.
Arguments listeners {R L} _.
Arguments readyState {R L} _.
Arguments xhr_status {R L} _.
Arguments requestHeaders {R L} _.
Arguments new_xhr {R L}.
Arguments set_reqData {R L} _ _.
Arguments addEventListener {R L} _ _ _.
Arguments setRequestHeader {R L} _ _ _.
Arguments run_all {R L} _ _ _ _ _.
Arguments fire {R L} _ _ _ _.
Arguments native_open {R L} _ _ _ _ _.
Arguments complete {R L} _ _ _ _.
Arguments xhr_call {R L} _ _ _ _.
Arguments xhr_calls {R L} _ _ _ _.

End Browser.

(* ================================================================== *)
(** ** What every variant captures when the script is evaluated *)
(* ================================================================== *)

Module Config.
Import Js.

(** [endpointId] is the data-endpoint-id attribute (a string, or null);
    [sendBeaconAvailable] is the truth value of [navigator.sendBeacon];
    [timeOrigin] is [performance.timeOrigin]. *)
Record Ctx := mkCtx {
  endpointId : JsVal;
  apiBaseUrl : string;
  errorsBaseUrl : string;
  sessionId : string;
  sendBeaconAvailable : bool;
  timeOrigin : Q
}.

(** [const rumIds = { session_id: sessionId, endpoint_id: endpointId }]. *)
Definition rumIds (c : Ctx) : Obj :=
  [("session_id", JStr (sessionId c)); ("endpoint_id", endpointId c)].

(** [x || d] on a number that may be missing. *)
Definition num_or (x : option Q) (d : Q) : Q :=
  match x with
  | Some q => if Qeq_bool q 0 then d else q
  | None => d
  end.

(** [typeof input === 'string' ? input : input.url]. *)
Definition endpoint_of (input : Browser.FetchInput) : JsVal :=
  match input with
  | Browser.InputString s => JStr s
  | Browser.InputObject o => obj_get o "url"
  end.

(** [init.headers = { ...(init.headers || {}), 'X-RUM-Session-Id': ...,
    'X-RUM-Endpoint-Id': ... }] after [init = init || {}]. *)
Definition inject_headers (c : Ctx) (init : option Browser.FetchInit)
  : Browser.FetchInit :=
  let i := match init with
           | Some i => i
           | None => Browser.mkInit None None
           end in
  let own := match Browser.init_headers i with
             | Some h => h
             | None => []
             end in
  Browser.mkInit (Browser.init_method i)
    (Some (obj_set (obj_set (obj_spread [] own)
                      "X-RUM-Session-Id" (JStr (sessionId c)))
             "X-RUM-Endpoint-Id" (endpointId c))).

(** [init.method || 'GET']. *)
Definition method_or_GET (m : option string) : string :=
  match m with
  | Some s => if String.eqb s "" then "GET" else s
  | None => "GET"
  end.

End Config.

(* ================================================================== *)
(** ** The current agent *)
(* ================================================================== *)

Module Rum.
Import Js Browser Config.

Definition toEpochMs (c : Ctx) (monotonicMs : Q) : Q :=
  (timeOrigin c + monotonicMs)%Q.

Definition post (c : Ctx) (u : string) (payload : Obj) (useBeacon : bool)
  : Delivery :=
  if andb useBeacon (sendBeaconAvailable c)
  then mkDelivery SendBeacon u payload
  else mkDelivery (FetchRequest true) u payload.

Definition sendMetrics (c : Ctx) (data : Obj) : Delivery :=
  let payload := obj_spread (obj_spread [] data) (rumIds c) in
  post c (String.append (apiBaseUrl c) "/rum/page-metrics") payload true.

Definition sendError (c : Ctx) (data : Obj) : Delivery :=
  let payload := obj_spread (obj_spread [] data) (rumIds c) in
  post c (String.append (errorsBaseUrl c) "/rum/errors") payload false.

(** *** Session end *)

Inductive UnloadEvent := PageHide | VisibilityChange | BeforeUnload.

Definition UnloadEvent_eqb (a b : UnloadEvent) : bool :=
  match a, b with
  | PageHide, PageHide => true
  | VisibilityChange, VisibilityChange => true
  | BeforeUnload, BeforeUnload => true
  | _, _ => false
  end.

Inductive VisibilityState := Visible | Hidden.

(** One event reaching the window: its type, [document.visibilityState]
    and [Date.now()] at that moment. *)
Record Occurrence := mkOcc {
  occ_evt : UnloadEvent;
  occ_visibility : VisibilityState;
  occ_now : Q
}.

(** The listener body; [session_start] is the number read back from the
    stored rum_session_start item, if there is one. *)
Definition session_end_listener (c : Ctx) (session_start : option Q)
           (evt : UnloadEvent) (o : Occurrence) : list Delivery :=
  if orb (match occ_visibility o with Hidden => true | Visible => false end)
         (negb (UnloadEvent_eqb evt VisibilityChange))
  then
    [sendMetrics c
       [("trigger", JStr "session_end");
        ("session",
         JObj [("start_epoch_ms",
                match session_start with
                | Some q => js_or (JNum q) JNull
                | None => JNull
                end);
               ("end_ts", JIso (occ_now o));
               ("end_epoch_ms", JNum (occ_now o))])]]
  else [].

(** The listeners still registered, by the event they listen to. *)
Definition Registered := list UnloadEvent.

(** [['pagehide', 'visibilitychange', 'beforeunload'].forEach(evt =>
    window.addEventListener(evt, ..., { once: true }))]. *)
Definition register_session_end : Registered :=
  [PageHide; VisibilityChange; BeforeUnload].

Fixpoint unregister (evt : UnloadEvent) (r : Registered) : Registered :=
  match r with
  | [] => []
  | e :: rest => if UnloadEvent_eqb e evt then rest else e :: unregister evt rest
  end.

(** Dispatch of one event: a once-listener is removed when it is invoked,
    whatever its body does. *)
Definition dispatch (c : Ctx) (session_start : option Q) (r : Registered)
           (o : Occurrence) : Registered * list Delivery :=
  if existsb (UnloadEvent_eqb (occ_evt o)) r
  then (unregister (occ_evt o) r,
        session_end_listener c session_start (occ_evt o) o)
  else (r, []).

Fixpoint run_events (c : Ctx) (session_start : option Q) (r : Registered)
         (os : list Occurrence) : Registered * list Delivery :=
  match os with
  | [] => (r, [])
  | o :: rest =>
      let '(r1, log1) := dispatch c session_start r o in
      let '(r2, log2) := run_events c session_start r1 rest in
      (r2, log1 ++ log2)
  end.

(** The telemetry of a page whose listeners were just registered. *)
Definition unload_sequence (c : Ctx) (session_start : option Q)
           (os : list Occurrence) : list Delivery :=
  snd (run_events c session_start register_session_end os).

(** *** Error capture *)

Record ErrorEvent := mkErrorEvent {
  ev_message : JsVal;
  ev_filename : JsVal;
  ev_lineno : JsVal;
  ev_colno : JsVal;
  ev_error : JsVal
}.

Definition on_error (c : Ctx) (event : ErrorEvent) : list Delivery :=
  [sendError c
     [("trigger", JStr "js_error");
      ("error",
       JObj [("message", ev_message event);
             ("source", ev_filename event);
             ("lineno", ev_lineno event);
             ("colno", ev_colno event);
             ("stack", if truthy (ev_error event)
                       then get_prop_opt (ev_error event) "stack"
                       else JNull)])]].

(** [reason] is [event.reason]. *)
Definition on_unhandledrejection (c : Ctx) (reason : JsVal) : list Delivery :=
  [sendError c
     [("trigger", JStr "js_promise_rejection");
      ("error",
       JObj [("message",
              if truthy reason
              then js_or (get_prop_opt reason "message") (js_String reason)
              else JStr "Unhandled Promise Rejection");
             ("stack",
              if andb (truthy reason) (truthy (get_prop_opt reason "stack"))
              then get_prop_opt reason "stack"
              else JNull)])]].

(** *** The fetch wrapper *)

(** [err?.message || String(err)]. *)
Definition failure_message (err : JsVal) : JsVal :=
  js_or (get_prop_opt err "message") (js_String err).

Definition fetch_api_record (c : Ctx) (method : string) (endpoint : JsVal)
           (st : JsVal) (startMono endMono : Q) (err : option JsVal) : Obj :=
  let startEpoch := toEpochMs c startMono in
  let endEpoch := toEpochMs c endMono in
  [("type", JStr "fetch");
   ("method", JStr method);
   ("endpoint", endpoint);
   ("status", st);
   ("duration", JNum (endMono - startMono)%Q)]
  ++ match err with
     | Some e => [("error", e)]
     | None => []
     end
  ++ [("start_epoch_ms", JNum startEpoch);
      ("end_epoch_ms", JNum endEpoch);
      ("start_ts", JIso startEpoch);
      ("end_ts", JIso endEpoch)].

(** [(function (fetchFn) { window.fetch = function (input, init = {}) {...} })]:
    the function that is installed, given the one that was captured. *)
Definition patch_fetch (c : Ctx) (fetchFn : FetchFn) : FetchFn :=
  fun startMono endMono input init =>
    let init' := inject_headers c init in
    let method := toUpperCase (method_or_GET (init_method init')) in
    let endpoint := endpoint_of input in
    let '(log, outcome) := fetchFn startMono endMono input (Some init') in
    match outcome with
    | Resolved response =>
        let rec :=
          [("api", JObj (fetch_api_record c method endpoint
                           (JNum (inject_Z (status response)))
                           startMono endMono None))] in
        (log ++ [if Z.leb 400 (status response)
                 then sendError c (obj_spread [("trigger", JStr "api_call_error")] rec)
                 else sendMetrics c (obj_spread [("trigger", JStr "api_call")] rec)],
         Resolved response)
    | Rejected err =>
        (log ++ [sendError c
                   [("trigger", JStr "api_call_exception");
                    ("api", JObj (fetch_api_record c method endpoint JNull
                                    startMono endMono
                                    (Some (failure_message err))))]],
         Rejected err)
    end.

(** *** The XMLHttpRequest wrapper *)

Record ReqData := mkReqData {
  rd_method : string;
  rd_url : string;
  rd_startMono : option Q;
  rd_startEpoch : option Q
}.

Inductive Listener :=
| OnReadyStateChange      (* injects the headers, stamps the start *)
| OnLoadEnd.              (* emits the record *)

Definition RumXhr := Xhr ReqData Listener.

Definition on_readystatechange (c : Ctx) (now : Q) (x : RumXhr) : RumXhr :=
  if Z.eqb (readyState x) 1 then
    let x1 :=
      match setRequestHeader x "X-RUM-Session-Id" (JStr (sessionId c)) with
      | Some xa =>
          match setRequestHeader xa "X-RUM-Endpoint-Id" (endpointId c) with
          | Some xb => xb
          | None => xa
          end
      | None => x
      end in
    match reqData x1 with
    | Some rd =>
        set_reqData x1 (mkReqData (rd_method rd) (rd_url rd)
                          (Some now) (Some (toEpochMs c now)))
    | None => x1
    end
  else x.

Definition on_loadend (c : Ctx) (now : Q) (x : RumXhr) : list Delivery :=
  match reqData x with
  | None => []      (* reading [this._reqData.startEpoch] throws *)
  | Some rd =>
      let endMono := now in
      let endEpoch := toEpochMs c endMono in
      let startEpoch :=
        num_or (rd_startEpoch rd) (toEpochMs c (num_or (rd_startMono rd) 0)) in
      let duration := (endMono - num_or (rd_startMono rd) endMono)%Q in
      let base :=
        [("api",
          JObj [("type", JStr "xhr");
                ("method", JStr (rd_method rd));
                ("endpoint", JStr (rd_url rd));
                ("status", JNum (inject_Z (xhr_status x)));
                ("duration", JNum duration);
                ("start_epoch_ms", JNum startEpoch);
                ("end_epoch_ms", JNum endEpoch);
                ("start_ts", JIso startEpoch);
                ("end_ts", JIso endEpoch)])] in
      [if Z.leb 400 (xhr_status x)
       then sendError c (obj_spread [("trigger", JStr "api_call_error")] base)
       else sendMetrics c (obj_spread [("trigger", JStr "api_call")] base)]
  end.

Definition run_listener (c : Ctx) (l : Listener) (now : Q) (x : RumXhr)
  : RumXhr * list Delivery :=
  match l with
  | OnReadyStateChange => (on_readystatechange c now x, [])
  | OnLoadEnd => (x, on_loadend c now x)
  end.

(** [(function (open) { XMLHttpRequest.prototype.open = function (...) {...} })]. *)
Definition patch_open (c : Ctx) (open : OpenFn ReqData Listener)
  : OpenFn ReqData Listener :=
  fun now method u x =>
    let x1 := set_reqData x (mkReqData (toUpperCase (method_or_GET method)) u
                               None None) in
    let x2 := addEventListener x1 ReadyStateChange OnReadyStateChange in
    let x3 := addEventListener x2 LoadEnd OnLoadEnd in
    open now method u x3.

(** The platform's [open] and request completion on an object carrying
    this script's listeners. *)
Definition xhr_native_open (c : Ctx) : OpenFn ReqData Listener :=
  native_open (run_listener c).

Definition xhr_complete (c : Ctx) (now : Q) (st : Z) (x : RumXhr)
  : RumXhr * list Delivery :=
  complete (run_listener c) now st x.


Definition open_after (c : Ctx) (n : nat) : OpenFn ReqData Listener :=
  Nat.iter n (patch_open c) (xhr_native_open c).

(** One request on a fresh object: [open] at [tOpen], completion with
    status [st] at [tEnd]. *)
Definition xhr_request (c : Ctx) (open : OpenFn ReqData Listener)
           (tOpen : Q) (method : option string) (u : string)
           (tEnd : Q) (st : Z) : RumXhr * list Delivery :=
  let '(x1, log1) := open tOpen method u new_xhr in
  let '(x2, log2) := xhr_complete c tEnd st x1 in
  (x2, log1 ++ log2).

(** Requests made one after the other on one object that starts fresh,
    with the script evaluated [n] times. *)
Definition xhr_requests (c : Ctx) (n : nat) (rs : list XhrCall)
  : list (RumXhr * list Delivery) :=
  xhr_calls (run_listener c) (open_after c n) new_xhr rs.

End Rum.

(* ================================================================== *)
(** ** rum-sass.js, first script *)
(* ================================================================== *)

Module RumSass.
Import Js Browser Config.

Definition sendMetrics (c : Ctx) (data : Obj) : Delivery :=
  let payload := obj_spread (obj_spread [] data) (rumIds c) in
  let u := String.append (apiBaseUrl c) "/rum/page-metrics" in
  if sendBeaconAvailable c
  then mkDelivery SendBeacon u payload
  else mkDelivery (FetchRequest false) u payload.

Definition sendError (c : Ctx) (data : Obj) : Delivery :=
  let payload := obj_spread (obj_spread [] data) (rumIds c) in
  let u := String.append (errorsBaseUrl c) "/rum/errors" in
  mkDelivery (FetchRequest false) u payload.

Definition on_error (c : Ctx) (event : Rum.ErrorEvent) : list Delivery :=
  [sendError c
     [("trigger", JStr "js_error");
      ("error",
       JObj [("message", Rum.ev_message event);
             ("source", Rum.ev_filename event);
             ("lineno", Rum.ev_lineno event);
             ("colno", Rum.ev_colno event);
             ("stack", if truthy (Rum.ev_error event)
                       then get_prop_opt (Rum.ev_error event) "stack"
                       else JNull)])]].

Definition on_unhandledrejection (c : Ctx) (reason : JsVal) : list Delivery :=
  [sendError c
     [("trigger", JStr "js_promise_rejection");
      ("error",
       JObj [("message",
              if truthy reason
              then js_or (get_prop_opt reason "message") reason
              else JStr "Unhandled Promise Rejection");
             ("stack",
              if andb (truthy reason) (truthy (get_prop_opt reason "stack"))
              then get_prop_opt reason "stack"
              else JNull)])]].

Definition fetch_api_record (method : string) (endpoint st : JsVal)
           (duration : Q) (err : option JsVal) : Obj :=
  [("type", JStr "fetch");
   ("method", JStr method);
   ("endpoint", endpoint);
   ("status", st);
   ("duration", JNum duration)]
  ++ match err with
     | Some e => [("error", e)]
     | None => []
     end.

(** The catch handler reads [err.message] unguarded: on a null or undefined
    rejection value the read throws inside the handler, before [sendError]
    is reached, and the returned promise rejects with that TypeError. *)
Definition patch_fetch (c : Ctx) (fetchFn : FetchFn) : FetchFn :=
  fun start settle input init =>
    let init' := inject_headers c init in
    let method := method_or_GET (init_method init') in
    let '(log, outcome) := fetchFn start settle input (Some init') in
    match outcome with
    | Resolved response =>
        let duration := (settle - start)%Q in
        let api :=
          fetch_api_record method (endpoint_of input)
            (JNum (inject_Z (status response))) duration None in
        (log ++ [if Z.leb 400 (status response)
                 then sendError c [("trigger", JStr "api_call_error");
                                   ("api", JObj api)]
                 else sendMetrics c [("trigger", JStr "api_call");
                                     ("api", JObj api)]],
         Resolved response)
    | Rejected err =>
        let duration := (settle - start)%Q in
        match get_prop err "message" with
        | Some msg =>
            (log ++ [sendError c
                       [("trigger", JStr "api_call_exception");
                        ("api", JObj (fetch_api_record method (endpoint_of input)
                                        JNull duration (Some msg)))]],
             Rejected err)
        | None => (log, Rejected (TypeError_nullish_read "message"))
        end
    end.

Record ReqData := mkReqData {
  rd_method : JsVal;
  rd_url : string;
  rd_start : Q
}.

Inductive Listener := OnReadyStateChange | OnLoadEnd.

Definition SassXhr := Xhr ReqData Listener.

Definition on_readystatechange (c : Ctx) (x : SassXhr) : SassXhr :=
  if Z.eqb (readyState x) 1 then
    match setRequestHeader x "X-RUM-Session-Id" (JStr (sessionId c)) with
    | Some xa =>
        match setRequestHeader xa "X-RUM-Endpoint-Id" (endpointId c) with
        | Some xb => xb
        | None => xa
        end
    | None => x
    end
  else x.

Definition on_loadend (c : Ctx) (now : Q) (x : SassXhr) : list Delivery :=
  match reqData x with
  | None => []
  | Some rd =>
      let data :=
        [("api",
          JObj [("type", JStr "xhr");
                ("method", rd_method rd);
                ("endpoint", JStr (rd_url rd));
                ("status", JNum (inject_Z (xhr_status x)));
                ("duration", JNum (now - rd_start rd)%Q)])] in
      [if Z.leb 400 (xhr_status x)
       then sendError c (obj_spread [("trigger", JStr "api_call_error")] data)
       else sendMetrics c (obj_spread [("trigger", JStr "api_call")] data)]
  end.

Definition run_listener (c : Ctx) (l : Listener) (now : Q) (x : SassXhr)
  : SassXhr * list Delivery :=
  match l with
  | OnReadyStateChange => (on_readystatechange c x, [])
  | OnLoadEnd => (x, on_loadend c now x)
  end.

Definition method_arg (m : option string) : JsVal :=
  match m with
  | Some s => JStr s
  | None => JUndefined
  end.

Definition patch_open (c : Ctx) (open : OpenFn ReqData Listener)
  : OpenFn ReqData Listener :=
  fun now method u x =>
    let x1 := set_reqData x (mkReqData (method_arg method) u now) in
    let x2 := addEventListener x1 ReadyStateChange OnReadyStateChange in
    let x3 := addEventListener x2 LoadEnd OnLoadEnd in
    open now method u x3.

Definition xhr_request (c : Ctx) (tOpen : Q) (method : option string)
           (u : string) (tEnd : Q) (st : Z) : SassXhr * list Delivery :=
  let '(x1, log1) :=
    patch_open c (native_open (run_listener c)) tOpen method u new_xhr in
  let '(x2, log2) := complete (run_listener c) tEnd st x1 in
  (x2, log1 ++ log2).

(** Requests made one after the other on one object that starts fresh. *)
Definition xhr_requests (c : Ctx) (rs : list XhrCall)
  : list (SassXhr * list Delivery) :=
  xhr_calls (run_listener c) (patch_open c (native_open (run_listener c)))
    new_xhr rs.

End RumSass.

(* ================================================================== *)
(** ** rum-sass.js, second script *)
(* ================================================================== *)

Module RumLegacy.
Import Js Browser Config.

(** [{ ...data, session_id: rumIds.session_id, endpoint_id: rumIds.endpoint_id }]
    sent to the hard-wired endpoint. *)
Definition sendMetrics (c : Ctx) (data : Obj) : Delivery :=
  let payload :=
    obj_set (obj_set (obj_spread [] data) "session_id" (JStr (sessionId c)))
            "endpoint_id" (endpointId c) in
  let u := "http://localhost:8000/rum/page-metrics" in
  if sendBeaconAvailable c
  then mkDelivery SendBeacon u payload
  else mkDelivery (FetchRequest false) u payload.

(** The fields every envelope literal of this script starts with; [href]
    is [window.location.href] and [new Date()] is taken as
    [timeOrigin + performance.now()]. *)
Definition envelope_head (c : Ctx) (href : string) (now : Q) (trigger : string)
  : Obj :=
  [("session_id", JStr (sessionId c));
   ("endpoint_id", endpointId c);
   ("url", JStr href);
   ("timestamp", JIso (timeOrigin c + now)%Q);
   ("trigger", JStr trigger)].

Definition on_error (c : Ctx) (href : string) (now : Q)
           (event : Rum.ErrorEvent) : list Delivery :=
  [sendMetrics c
     (envelope_head c href now "js_error" ++
      [("error",
        JObj [("message", Rum.ev_message event);
              ("source", Rum.ev_filename event);
              ("lineno", Rum.ev_lineno event);
              ("colno", Rum.ev_colno event);
              ("stack", if truthy (Rum.ev_error event)
                        then get_prop_opt (Rum.ev_error event) "stack"
                        else JNull)])])].

Record ReqData := mkReqData {
  rd_method : JsVal;
  rd_url : string;
  rd_start : Q
}.

Inductive Listener := OnLoadEnd.

Definition LegacyXhr := Xhr ReqData Listener.

(** The loadend listener: one api_call envelope whatever the status. *)
Definition on_loadend (c : Ctx) (href : string) (now : Q) (x : LegacyXhr)
  : list Delivery :=
  match reqData x with
  | None => []
  | Some rd =>
      [sendMetrics c
         (envelope_head c href now "api_call" ++
          [("api",
            JObj [("type", JStr "xhr");
                  ("method", rd_method rd);
                  ("endpoint", JStr (rd_url rd));
                  ("status", JNum (inject_Z (xhr_status x)));
                  ("duration", JNum (now - rd_start rd)%Q)])])]
  end.

Definition run_listener (c : Ctx) (href : string) (l : Listener) (now : Q)
           (x : LegacyXhr) : LegacyXhr * list Delivery :=
  match l with
  | OnLoadEnd => (x, on_loadend c href now x)
  end.

Definition patch_open (open : OpenFn ReqData Listener)
  : OpenFn ReqData Listener :=
  fun now method u x =>
    let x1 := set_reqData x (mkReqData (RumSass.method_arg method) u now) in
    let x2 := addEventListener x1 LoadEnd OnLoadEnd in
    open now method u x2.

Definition xhr_request (c : Ctx) (href : string) (tOpen : Q)
           (method : option string) (u : string) (tEnd : Q) (st : Z)
  : LegacyXhr * list Delivery :=
  let '(x1, log1) :=
    patch_open (native_open (run_listener c href)) tOpen method u new_xhr in
  let '(x2, log2) := complete (run_listener c href) tEnd st x1 in
  (x2, log1 ++ log2).

(** Requests made one after the other on one object that starts fresh. *)
Definition xhr_requests (c : Ctx) (href : string) (rs : list XhrCall)
  : list (LegacyXhr * list Delivery) :=
  xhr_calls (run_listener c href)
    (patch_open (native_open (run_listener c href))) new_xhr rs.

End RumLegacy.

(* ================================================================== *)
(** ** Observers and resource timing (the same in the three scripts) *)
(* ================================================================== *)

Module Observers.
Import Js Browser.

(** *** Paint *)

Record PaintEntry := mkPaint {
  pe_name : string;
  pe_startTime : Q
}.

(** [let fpValue = null, fcpValue = null]. *)
Record PaintState := mkPaintState {
  fpValue : option Q;
  fcpValue : option Q
}.

Definition paint_initial : PaintState := mkPaintState None None.

(** The loop body of the paint observer callback. *)
Definition paint_entry (st : PaintState) (e : PaintEntry) : PaintState :=
  let st1 :=
    if String.eqb (pe_name e) "first-paint"
    then mkPaintState (Some (pe_startTime e)) (fcpValue st)
    else st in
  if String.eqb (pe_name e) "first-contentful-paint"
  then mkPaintState (fpValue st1) (Some (pe_startTime e))
  else st1.

(** One invocation of the callback on [list.getEntries()]. *)
Definition paintObserver (st : PaintState) (entries : list PaintEntry)
  : PaintState :=
  fold_left paint_entry entries st.

(** A run of callbacks, oldest first, from the initial state. *)
Definition paint_after (batches : list (list PaintEntry)) : PaintState :=
  fold_left paintObserver batches paint_initial.

(** *** Cumulative layout shift *)





(** *** Resource timing *)

(** [re_transferSize] is [None] where the browser does not expose the
    property. *)
Record ResourceEntry := mkResource {
  re_name : string;
  re_initiatorType : string;
  re_duration : Q;
  re_transferSize : option Q;
  re_startTime : Q;
  re_responseEnd : Q
}.

Definition not_beacon (r : ResourceEntry) : bool :=
  negb (String.eqb (re_initiatorType r) "beacon").

Definition resource_record (r : ResourceEntry) : Obj :=
  [("name", JStr (re_name r));
   ("type", JStr (re_initiatorType r));
   ("duration", JNum (re_duration r));
   ("transferSize",
    js_or (match re_transferSize r with
           | Some q => JNum q
           | None => JUndefined
           end) JNull);
   ("startTime", JNum (re_startTime r));
   ("responseEnd", JNum (re_responseEnd r))].

(** [resources] is [performance.getEntriesByType('resource')]. *)
Definition collectResourceMetrics (resources : list ResourceEntry) : list Obj :=
  map resource_record (filter not_beacon resources).

(** Resource Timing: the initiator type the browser records for a request
    made through each delivery primitive. *)
Definition initiatorType_of (t : Transport) : string :=
  match t with
  | SendBeacon => "beacon"
  | FetchRequest _ => "fetch"
  end.

(** The resource entry the browser records for a delivery of the agent. *)
Definition resource_entry_of (d : Delivery) (startTime duration : Q)
           (transferSize : option Q) : ResourceEntry :=
  mkResource (url d) (initiatorType_of (via d)) duration transferSize
             startTime (startTime + duration)%Q.

End Observers.

(* ================================================================== *)
(** ** Vocabulary of the properties *)
(* ================================================================== *)

Module Spec.
Import Js Browser Config.


(** The payload carries the identity of the context, whatever [data] is. *)
Definition carries_identity (c : Ctx) (d : Delivery) : Prop :=
  obj_get (body d) "session_id" = JStr (sessionId c) /\
  obj_get (body d) "endpoint_id" = endpointId c.

(** *** Delivery paths *)

Definition errors_url (c : Ctx) : string :=
  String.append (errorsBaseUrl c) "/rum/errors".

Definition metrics_url (c : Ctx) : string :=
  String.append (apiBaseUrl c) "/rum/page-metrics".

Definition is_fetch (t : Transport) : bool :=
  match t with
  | FetchRequest _ => true
  | SendBeacon => false
  end.

(** The contexts the examples are run in. *)
Definition example_ctx : Ctx :=
  mkCtx (JStr "ep-1") "http://api.test" "http://errors.test" "sess-1" true 1000.

Definition example_ctx_no_beacon : Ctx :=
  mkCtx JNull "http://api.test" "http://errors.test" "sess-1" false 1000.

(** A standard request to the errors endpoint. *)
Definition errors_path (c : Ctx) (d : Delivery) : Prop :=
  is_fetch (via d) = true /\ url d = errors_url c.

(** The beacon when the browser has one, else a standard request, to the
    metrics endpoint. *)
Definition metrics_path (c : Ctx) (d : Delivery) : Prop :=
  url d = metrics_url c /\
  if sendBeaconAvailable c then via d = SendBeacon
  else is_fetch (via d) = true.

Definition error_triggers : list string :=
  ["js_error"; "js_promise_rejection"; "api_call_error"; "api_call_exception"].

Definition is_error_envelope (d : Delivery) : bool :=
  existsb (fun t => has_trigger t d) error_triggers.

(** The single endpoint of the second rum-sass.js script, through the
    beacon when the browser has one. *)
Definition metrics_legacy_path (c : Ctx) (d : Delivery) : Prop :=
  url d = "http://localhost:8000/rum/page-metrics" /\
  if sendBeaconAvailable c then via d = SendBeacon
  else is_fetch (via d) = true.

(** An error envelope on the errors path. *)
Definition error_on_errors_path (c : Ctx) (d : Delivery) : Prop :=
  is_error_envelope d = true /\ errors_path c d.

(** Each envelope on the path of its kind. *)
Definition routed (c : Ctx) (d : Delivery) : Prop :=
  if is_error_envelope d then errors_path c d else metrics_path c d.

(** *** Network records *)

Definition error_records (log : list Delivery) : nat :=
  count_trigger "api_call_error" log.

Definition metric_records (log : list Delivery) : nat :=
  count_trigger "api_call" log.

Definition exception_records (log : list Delivery) : nat :=
  count_trigger "api_call_exception" log.

(** One record, an error record exactly when the status is 400 or more. *)
Definition classified_by_status (st : Z) (log : list Delivery) : Prop :=
  List.length log = 1%nat /\
  error_records log = (if Z.leb 400 st then 1 else 0)%nat /\
  metric_records log = (if Z.leb 400 st then 0 else 1)%nat.

(** [m] records: error records, all of them, when the status is 400 or
    more, and metrics records, all of them, otherwise. *)
Definition records_by_status (m : nat) (st : Z) (log : list Delivery) : Prop :=
  List.length log = m /\
  error_records log = (if Z.leb 400 st then m else 0)%nat /\
  metric_records log = (if Z.leb 400 st then 0 else m)%nat.

(** [m] records, metrics records all of them. *)
Definition records_unclassified (m : nat) (log : list Delivery) : Prop :=
  List.length log = m /\ metric_records log = m /\ error_records log = 0%nat.

(** [P i r result] for every request [r] of a run of requests on one
    object and its result, [i] being the rank of the request in the run,
    counted from [first]. *)
Fixpoint each_request {X : Type} (P : nat -> XhrCall -> X -> Prop)
         (first : nat) (rs : list XhrCall) (results : list X) : Prop :=
  match rs, results with
  | [], [] => True
  | r :: rs', result :: results' =>
      P first r result /\ each_request P (S first) rs' results'
  | _, _ => False
  end.

(** *** Session end *)

Definition session_end_count (log : list Delivery) : nat :=
  count_trigger "session_end" log.

(** The guard of the listener registered for [evt], evaluated when [o]
    reaches it. *)
Definition sends_on (evt : Rum.UnloadEvent) (o : Rum.Occurrence) : bool :=
  orb (match Rum.occ_visibility o with
       | Rum.Hidden => true
       | Rum.Visible => false
       end)
      (negb (Rum.UnloadEvent_eqb evt Rum.VisibilityChange)).

(** What the one-shot listener of [evt] contributes to a sequence: it sees
    the first occurrence of its event only. *)
Definition envelopes_from (evt : Rum.UnloadEvent) (os : list Rum.Occurrence)
  : nat :=
  match find (fun o => Rum.UnloadEvent_eqb (Rum.occ_evt o) evt) os with
  | Some o => if sends_on evt o then 1 else 0
  | None => 0
  end.

Definition envelopes_of (r : Rum.Registered) (os : list Rum.Occurrence) : nat :=
  list_sum (map (fun evt => envelopes_from evt os) r).

(** The claim that a sequence of unload events sends one session-end
    envelope. *)
Definition one_session_end (c : Ctx) (session_start : option Q)
           (os : list Rum.Occurrence) : Prop :=
  session_end_count (Rum.unload_sequence c session_start os) = 1%nat.

(** pagehide, then beforeunload. *)
Definition pagehide_then_beforeunload : list Rum.Occurrence :=
  [Rum.mkOcc Rum.PageHide Rum.Visible 5000;
   Rum.mkOcc Rum.BeforeUnload Rum.Visible 5001].

(** *** Repeated application of the shims *)



Definition init_or_empty (init : option FetchInit) : FetchInit :=
  match init with
  | Some i => i
  | None => mkInit None None
  end.

(** What one run of the [open] wrapper does to the object before it
    calls the function it captured. *)
Definition prepare (method : option string) (u : string) (x : Rum.RumXhr)
  : Rum.RumXhr :=
  addEventListener
    (addEventListener
       (set_reqData x (Rum.mkReqData (toUpperCase (method_or_GET method)) u
                         None None))
       ReadyStateChange Rum.OnReadyStateChange)
    LoadEnd Rum.OnLoadEnd.

(** The listeners and the header calls of [n] runs of the wrapper. *)
Definition shim_listeners (n : nat) : list (XhrEvent * Rum.Listener) :=
  List.concat (repeat [(ReadyStateChange, Rum.OnReadyStateChange);
                  (LoadEnd, Rum.OnLoadEnd)] n).

Definition shim_headers (c : Ctx) (n : nat) : list (string * JsVal) :=
  List.concat (repeat [("X-RUM-Session-Id", JStr (sessionId c));
                  ("X-RUM-Endpoint-Id", endpointId c)] n).

(** The same for the first and for the second rum-sass.js script. *)
Definition sass_listeners (n : nat) : list (XhrEvent * RumSass.Listener) :=
  List.concat (repeat [(ReadyStateChange, RumSass.OnReadyStateChange);
                  (LoadEnd, RumSass.OnLoadEnd)] n).

Definition legacy_listeners (n : nat) : list (XhrEvent * RumLegacy.Listener) :=
  List.concat (repeat [(LoadEnd, RumLegacy.OnLoadEnd)] n).



(** *** Observers *)

(** The start time of the first, and of the last, entry called [name]. *)
Fixpoint first_named (name : string) (es : list Observers.PaintEntry)
  : option Q :=
  match es with
  | [] => None
  | e :: rest =>
      if String.eqb (Observers.pe_name e) name
      then Some (Observers.pe_startTime e)
      else first_named name rest
  end.

Fixpoint last_named (name : string) (es : list Observers.PaintEntry)
  : option Q :=
  match es with
  | [] => None
  | e :: rest =>
      match last_named name rest with
      | Some q => Some q
      | None =>
          if String.eqb (Observers.pe_name e) name
          then Some (Observers.pe_startTime e)
          else None
      end
  end.

Definition named_count (name : string) (es : list Observers.PaintEntry) : nat :=
  List.length (filter (fun e => String.eqb (Observers.pe_name e) name) es).

(** The claim that each paint value is the start time of the first entry
    of its name. *)
Definition paint_set_to_first (batches : list (list Observers.PaintEntry))
  : Prop :=
  Observers.fpValue (Observers.paint_after batches)
  = first_named "first-paint" (List.concat batches) /\
  Observers.fcpValue (Observers.paint_after batches)
  = first_named "first-contentful-paint" (List.concat batches).

(** The claim that a value that is set is not revised by a later callback. *)
Definition paint_not_revised (st : Observers.PaintState)
           (batch : list Observers.PaintEntry) : Prop :=
  (Observers.fpValue st <> None ->
   Observers.fpValue (Observers.paintObserver st batch) = Observers.fpValue st) /\
  (Observers.fcpValue st <> None ->
   Observers.fcpValue (Observers.paintObserver st batch)
   = Observers.fcpValue st).







(** The same entry on a browser that does not expose transferSize. *)
Definition without_transferSize (r : Observers.ResourceEntry)
  : Observers.ResourceEntry :=
  Observers.mkResource (Observers.re_name r) (Observers.re_initiatorType r)
    (Observers.re_duration r) None (Observers.re_startTime r)
    (Observers.re_responseEnd r).

(** The claim that the entry of every delivery of the agent is left out of
    the resource metrics. *)
Definition own_deliveries_excluded (deliveries : list Delivery)
           (rs : list Observers.ResourceEntry) : Prop :=
  forall d t dur ts,
    In d deliveries ->
    In (Observers.resource_entry_of d t dur ts) rs ->
    ~ In (Observers.resource_record (Observers.resource_entry_of d t dur ts))
         (Observers.collectResourceMetrics rs).

End Spec.


(* ================================================================== *)
(** ** Evaluation of the script: configuration, identity, session start *)
(* ================================================================== *)

Module Startup.
Import Js Browser Config.

(** The three attributes read from the loading tag; [None] is the null
    that [getAttribute] returns for a missing attribute. *)
Record ScriptTag := mkScriptTag {
  data_endpoint_id : option string;
  data_api_url : option string;
  data_errors_url : option string
}.

(** [document.currentScript || document.querySelector('script[data-endpoint-id]')]. *)
Definition currentScript (current queried : option ScriptTag)
  : option ScriptTag :=
  match current with
  | Some s => Some s
  | None => queried
  end.

(** [attr || fallback] on an attribute value. *)
Definition attr_or (attr : option string) (fallback : string) : string :=
  match attr with
  | Some s => if String.eqb s "" then fallback else s
  | None => fallback
  end.

Definition endpointId_of (script : option ScriptTag) : JsVal :=
  match script with
  | Some s => match data_endpoint_id s with
              | Some e => JStr e
              | None => JNull
              end
  | None => JNull
  end.

Definition apiBaseUrl_of (script : option ScriptTag) : string :=
  match script with
  | Some s => attr_or (data_api_url s) "http://localhost:8000"
  | None => "http://localhost:8000"
  end.

Definition errorsBaseUrl_of (script : option ScriptTag) : string :=
  match script with
  | Some s => attr_or (data_errors_url s) (apiBaseUrl_of script)
  | None => apiBaseUrl_of script
  end.

(** The two items the script keeps in [sessionStorage].  The start marker
    is the text [String(Date.now())]; it is held as the number it prints. *)
Record TabStorage := mkTabStorage {
  rum_session_id : option string;
  rum_session_start : option Q
}.

Definition empty_storage : TabStorage := mkTabStorage None None.

(** [sessionStorage.getItem('rum_session_id') || 'sess-' + Date.now() + '-'
    + Math.random().toString(16).slice(2)]; [suffix] is the text that
    follows ['sess-']. *)
Definition sessionId_of (st : TabStorage) (suffix : string) : string :=
  match rum_session_id st with
  | Some s => if String.eqb s "" then String.append "sess-" suffix else s
  | None => String.append "sess-" suffix
  end.

(** The session-start block; [t_store], [t_iso] and [t_epoch] are its three
    readings of the wall clock, in order. *)
Definition start_session (c : Ctx) (st : TabStorage) (t_store t_iso t_epoch : Q)
  : TabStorage * list Delivery :=
  match rum_session_start st with
  | Some _ => (st, [])
  | None =>
      (mkTabStorage (rum_session_id st) (Some t_store),
       [Rum.sendMetrics c
          [("trigger", JStr "session_start");
           ("session", JObj [("start_ts", JIso t_iso);
                             ("start_epoch_ms", JNum t_epoch)])]])
  end.

(** What the browser gives one evaluation of the script. *)
Record PageLoad := mkPageLoad {
  pl_current : option ScriptTag;
  pl_queried : option ScriptTag;
  pl_suffix : string;
  pl_sendBeacon : bool;
  pl_timeOrigin : Q;
  pl_t_store : Q;
  pl_t_iso : Q;
  pl_t_epoch : Q
}.

(** The top of the script up to the session-start block: the context the
    rest of the script closes over, the storage it leaves, what it sent. *)
Definition evaluate (p : PageLoad) (st : TabStorage)
  : Ctx * TabStorage * list Delivery :=
  let script := currentScript (pl_current p) (pl_queried p) in
  let sid := sessionId_of st (pl_suffix p) in
  let st1 := mkTabStorage (Some sid) (rum_session_start st) in
  let c := mkCtx (endpointId_of script) (apiBaseUrl_of script)
                 (errorsBaseUrl_of script) sid (pl_sendBeacon p)
                 (pl_timeOrigin p) in
  let '(st2, log) :=
    start_session c st1 (pl_t_store p) (pl_t_iso p) (pl_t_epoch p) in
  (c, st2, log).

End Startup.

(* ================================================================== *)
(** ** The other observers, the environment and the vitals snapshot *)
(* ================================================================== *)

Module Vitals.
Import Js Browser Config.

(** *** Largest contentful paint *)

Record LcpEntry := mkLcp { lcp_startTime : Q }.

(** [entries[entries.length - 1]]. *)
Definition last_of {A : Type} (entries : list A) : option A :=
  match entries with
  | [] => None
  | _ :: _ => nth_error entries (List.length entries - 1)
  end.

Definition lcpObserver (lcpValue : option Q) (entries : list LcpEntry)
  : option Q :=
  match last_of entries with
  | Some last => Some (lcp_startTime last)
  | None => lcpValue
  end.

Definition lcp_after (batches : list (list LcpEntry)) : option Q :=
  fold_left lcpObserver batches None.

(** *** First input delay *)

(** The two times are doubles and their difference is the rounded
    difference of doubles. *)
Record FirstInputEntry := mkFirstInput {
  fi_entryType : string;
  fi_processingStart : float;
  fi_startTime : float
}.

Definition fid_entry (fidValue : option float) (entry : FirstInputEntry)
  : option float :=
  if String.eqb (fi_entryType entry) "first-input"
  then Some (PrimFloat.sub (fi_processingStart entry) (fi_startTime entry))
  else fidValue.

Definition fidObserver (fidValue : option float)
           (entries : list FirstInputEntry) : option float :=
  fold_left fid_entry entries fidValue.

Definition fid_after (batches : list (list FirstInputEntry)) : option float :=
  fold_left fidObserver batches None.

(** *** Interaction to next paint *)

Record EventEntry := mkEventEntry {
  ee_interactionId : JsVal;
  ee_duration : Q
}.

Definition inp_entry (inpValue : option Q) (entry : EventEntry) : option Q :=
  if truthy (ee_interactionId entry) then Some (ee_duration entry)
  else inpValue.

Definition inpObserver (inpValue : option Q) (entries : list EventEntry)
  : option Q :=
  fold_left inp_entry entries inpValue.

Definition inp_after (batches : list (list EventEntry)) : option Q :=
  fold_left inpObserver batches None.

(** *** Environment *)





(** *** The vitals snapshot *)






End Vitals.

(* ================================================================== *)
(** ** The public hook and the second rum-sass.js fetch wrapper *)
(* ================================================================== *)

Module Hooks.
Import Js Browser Config.

(** [window.__rumLogBusiness]; [extra] is [{}] when the caller gives none. *)
Definition logBusinessMetric (c : Ctx) (name value : JsVal) (extra : Obj)
  : list Delivery :=
  [Rum.sendMetrics c
     [("trigger", JStr "business_metric");
      ("business", JObj (obj_spread [("name", name); ("value", value)] extra))]].

End Hooks.

Module LegacyFetch.
Import Js Browser Config.

Definition api_record (method : string) (endpoint st : JsVal) (duration : Q)
           (err : option JsVal) : Obj :=
  [("type", JStr "fetch");
   ("method", JStr method);
   ("endpoint", endpoint);
   ("status", st);
   ("duration", JNum duration)]
  ++ match err with
     | Some e => [("error", e)]
     | None => []
     end.

(** [window.fetch = function () { ... fetchFn.apply(this, arguments) ... }]:
    the arguments go on as they came.  The catch handler reads
    [err.message] last in its literal, before [sendMetrics] is called. *)
Definition patch_fetch (c : Ctx) (href : string) (fetchFn : FetchFn) : FetchFn :=
  fun start settle input init =>
    let method :=
      method_or_GET (match init with
                     | Some i => init_method i
                     | None => None
                     end) in
    let '(log, outcome) := fetchFn start settle input init in
    let duration := (settle - start)%Q in
    match outcome with
    | Resolved response =>
        (log ++ [RumLegacy.sendMetrics c
                   (RumLegacy.envelope_head c href settle "api_call" ++
                    [("api", JObj (api_record method (endpoint_of input)
                                     (JNum (inject_Z (status response)))
                                     duration None))])],
         Resolved response)
    | Rejected err =>
        match get_prop err "message" with
        | Some msg =>
            (log ++ [RumLegacy.sendMetrics c
                       (RumLegacy.envelope_head c href settle "api_call_error" ++
                        [("api", JObj (api_record method (endpoint_of input)
                                         JNull duration (Some msg)))])],
             Rejected err)
        | None => (log, Rejected (TypeError_nullish_read "message"))
        end
    end.

End LegacyFetch.

(* ================================================================== *)
(** ** Vocabulary of the further properties *)
(* ================================================================== *)

Module SpecMore.
Import Js Browser Config.

(** The last element of a list that satisfies [p]. *)
Definition last_satisfying {A : Type} (p : A -> bool) (l : list A) : option A :=
  find p (rev l).

(** The last element of a list. *)
Definition last_entry {A : Type} (l : list A) : option A :=
  match rev l with
  | [] => None
  | a :: _ => Some a
  end.

(** The step of an observer that keeps the latest entry satisfying [p],
    reduced to [f]. *)
Definition keep_latest {A V : Type} (p : A -> bool) (f : A -> V)
           (acc : option V) (e : A) : option V :=
  if p e then Some (f e) else acc.

(** The value a key is given last in a sequence of bindings. *)
Definition last_binding (o : Obj) (k : string) : option JsVal :=
  option_map snd (last_satisfying (fun kv => String.eqb (fst kv) k) o).

Definition is_first_input (e : Vitals.FirstInputEntry) : bool :=
  String.eqb (Vitals.fi_entryType e) "first-input".

(** The difference of the two doubles, rounded. *)
Definition input_delay (e : Vitals.FirstInputEntry) : float :=
  PrimFloat.sub (Vitals.fi_processingStart e) (Vitals.fi_startTime e).

Definition is_interaction (e : Vitals.EventEntry) : bool :=
  truthy (Vitals.ee_interactionId e).


(** The [api] object of a network record. *)
Definition api_of (d : Delivery) : Obj :=
  match obj_get (body d) "api" with
  | JObj o => o
  | _ => []
  end.



(** The [session] object of a session envelope. *)
Definition session_of (d : Delivery) : Obj :=
  match obj_get (body d) "session" with
  | JObj o => o
  | _ => []
  end.

(** The [business] object of a business-metric envelope. *)
Definition business_of (d : Delivery) : Obj :=
  match obj_get (body d) "business" with
  | JObj o => o
  | _ => []
  end.

End SpecMore.

(* ================================================================== *)
(** ** Timers and page events *)
(* ================================================================== *)

Module Scheduler.

Local Open Scope nat_scope.

(** Time is counted in whole milliseconds from the evaluation of the
    script, and a timer runs in the millisecond it is due: the delays are
    those the script asks for, without the lateness a busy page adds.  Of
    every [sendMetrics] call made by this part of the script the log keeps
    the time and the trigger of the envelope. *)

(** The functions the script hands to [setTimeout] and [setInterval]. *)
Inductive Callback :=
| EmitPageLoad          (* () => sendMetrics(collectRUMMetrics('page_load')) *)
| EmitSpaNavigation     (* () => sendMetrics(collectRUMMetrics('spa_navigation')) *)
| SendHeartbeat.        (* sendHeartbeat *)

Definition Callback_eqb (a b : Callback) : bool :=
  match a, b with
  | EmitPageLoad, EmitPageLoad => true
  | EmitSpaNavigation, EmitSpaNavigation => true
  | SendHeartbeat, SendHeartbeat => true
  | _, _ => false
  end.

(** A pending timer; [period] is set for an interval. *)
Record Timer := mkTimer {
  due : nat;
  callback : Callback;
  period : option nat
}.

(** What happens to the page.  For the two history methods [threw] tells
    whether the original method raised. *)
Inductive PageEvent :=
| Load
| PushState (threw : bool)
| ReplaceState (threw : bool)
| PopState.

Record Sent := mkSent {
  sent_at : nat;
  sent_trigger : string
}.

Record Loop := mkLoop {
  timers : list Timer;
  sent : list Sent
}.

Definition sendMetrics_at (now : nat) (trigger : string) (l : Loop) : Loop :=
  mkLoop (timers l) (sent l ++ [mkSent now trigger]).

Definition setTimeout (now : nat) (cb : Callback) (delay : nat) (l : Loop)
  : Loop :=
  mkLoop (timers l ++ [mkTimer (now + delay) cb None]) (sent l).

Definition setInterval (now : nat) (cb : Callback) (delay : nat) (l : Loop)
  : Loop :=
  mkLoop (timers l ++ [mkTimer (now + delay) cb (Some delay)]) (sent l).

(** The listener of the script's own spa-navigation event. *)
Definition on_spa_navigation (now : nat) (l : Loop) : Loop :=
  setTimeout now EmitSpaNavigation 300 l.

(** [history[fn] = function () { orig.apply(this, arguments);
    window.dispatchEvent(new Event('spa-navigation')); }]. *)
Definition patched_history (now : nat) (threw : bool) (l : Loop) : Loop :=
  if threw then l else on_spa_navigation now l.

(** The two load listeners, in the order they were registered. *)
Definition on_load (now : nat) (l : Loop) : Loop :=
  let l1 := sendMetrics_at now "environment" l in
  let l2 := setTimeout now EmitPageLoad 1000 l1 in
  sendMetrics_at now "heartbeat" l2.

Definition dispatch (now : nat) (l : Loop) (e : PageEvent) : Loop :=
  match e with
  | Load => on_load now l
  | PushState threw | ReplaceState threw => patched_history now threw l
  | PopState => on_spa_navigation now l
  end.

Definition trigger_name (cb : Callback) : string :=
  match cb with
  | EmitPageLoad => "page_load"
  | EmitSpaNavigation => "spa_navigation"
  | SendHeartbeat => "heartbeat"
  end.

Definition run_callback (now : nat) (l : Loop) (t : Timer) : Loop :=
  sendMetrics_at now (trigger_name (callback t)) l.

Definition is_due (now : nat) (t : Timer) : bool := Nat.leb (due t) now.

(** An interval is armed again when it has fired. *)
Definition rearm (now : nat) (t : Timer) : list Timer :=
  match period t with
  | Some p => [mkTimer (now + p) (callback t) (Some p)]
  | None => []
  end.

(** The timers that are due run, oldest registration first. *)
Definition fire_due (now : nat) (l : Loop) : Loop :=
  let ready := filter (is_due now) (timers l) in
  let waiting := filter (fun t => negb (is_due now t)) (timers l) in
  fold_left (run_callback now) ready
            (mkLoop (waiting ++ flat_map (rearm now) ready) (sent l)).

(** One millisecond: the due timers, then the events of that millisecond. *)
Definition tick (now : nat) (events : list PageEvent) (l : Loop) : Loop :=
  fold_left (dispatch now) events (fire_due now l).

(** The period of the heartbeat, 15000 ms. *)
Definition heartbeat_ms : nat := 15 * 1000.

Arguments heartbeat_ms : simpl never.

(** The end of the script: [setInterval(sendHeartbeat, 15000)]. *)
Definition evaluated : Loop :=
  setInterval 0 SendHeartbeat heartbeat_ms (mkLoop [] []).

(** The loop after the milliseconds [0 .. n-1]; [events t] are the events
    of millisecond [t], in order. *)
Fixpoint run (events : nat -> list PageEvent) (n : nat) : Loop :=
  match n with
  | O => evaluated
  | S k => tick k (events k) (run events k)
  end.

(** *** Vocabulary *)

(** What a due timer sends. *)
Definition fired (now : nat) (t : Timer) : Sent :=
  mkSent now (trigger_name (callback t)).

(** The timers an event leaves behind, and what it sends at once. *)
Definition scheduled_by (now : nat) (e : PageEvent) : list Timer :=
  match e with
  | Load => [mkTimer (now + 1000) EmitPageLoad None]
  | PushState false | ReplaceState false | PopState =>
      [mkTimer (now + 300) EmitSpaNavigation None]
  | _ => []
  end.

Definition sent_by (now : nat) (e : PageEvent) : list Sent :=
  match e with
  | Load => [mkSent now "environment"; mkSent now "heartbeat"]
  | _ => []
  end.

Definition count_if {A : Type} (q : A -> bool) (l : list A) : nat :=
  List.length (filter q l).

Definition is_load (e : PageEvent) : bool :=
  match e with
  | Load => true
  | _ => false
  end.

(** A navigation the script notices: a history call that returned, or a
    popstate. *)
Definition is_navigation (e : PageEvent) : bool :=
  match e with
  | PushState false | ReplaceState false | PopState => true
  | _ => false
  end.

Definition loads (es : list PageEvent) : nat := count_if is_load es.

Definition navigations (es : list PageEvent) : nat := count_if is_navigation es.

(** The envelopes with trigger [trigger] sent in millisecond [d]. *)
Definition sent_in (trigger : string) (d : nat) (s : Sent) : bool :=
  andb (Nat.eqb (sent_at s) d) (String.eqb (sent_trigger s) trigger).

Definition sent_count (trigger : string) (d : nat) (l : Loop) : nat :=
  count_if (sent_in trigger d) (sent l).

(** The pending timers of [cb] that are due in millisecond [d]. *)
Definition due_in (cb : Callback) (d : nat) (t : Timer) : bool :=
  andb (Callback_eqb (callback t) cb) (Nat.eqb (due t) d).

Definition pending (cb : Callback) (d : nat) (l : Loop) : nat :=
  count_if (due_in cb d) (timers l).

(** What the timers look like after [n] milliseconds. *)
Definition expected_pending (events : nat -> list PageEvent) (n : nat)
           (cb : Callback) (d : nat) : nat :=
  match cb with
  | EmitSpaNavigation =>
      if andb (Nat.leb n d) (andb (Nat.leb 300 d) (Nat.ltb (d - 300) n))
      then navigations (events (d - 300)) else 0
  | EmitPageLoad =>
      if andb (Nat.leb n d) (andb (Nat.leb 1000 d) (Nat.ltb (d - 1000) n))
      then loads (events (d - 1000)) else 0
  | SendHeartbeat =>
      if andb (Nat.leb (Nat.max n 1) d)
              (andb (Nat.ltb d (Nat.max n 1 + heartbeat_ms))
                    (Nat.eqb (d mod heartbeat_ms) 0))
      then 1 else 0
  end.

(** What has been sent after [n] milliseconds. *)
Definition expected_sent (events : nat -> list PageEvent) (n : nat)
           (trigger : string) (d : nat) : nat :=
  if negb (Nat.ltb d n) then 0
  else if String.eqb trigger "spa_navigation"
  then (if Nat.leb 300 d then navigations (events (d - 300)) else 0)
  else if String.eqb trigger "page_load"
  then (if Nat.leb 1000 d then loads (events (d - 1000)) else 0)
  else if String.eqb trigger "environment"
  then loads (events d)
  else if String.eqb trigger "heartbeat"
  then loads (events d)
       + (if andb (Nat.ltb 0 d) (Nat.eqb (d mod heartbeat_ms) 0) then 1 else 0)
  else 0.

Definition interval_only_heartbeat (t : Timer) : Prop :=
  period t = match callback t with
             | SendHeartbeat => Some heartbeat_ms
             | _ => None
             end.

(** The state of the loop after [n] milliseconds of [events]. *)
Definition settled (events : nat -> list PageEvent) (n : nat) (l : Loop)
  : Prop :=
  Forall (fun t => n <= due t) (timers l) /\
  Forall interval_only_heartbeat (timers l) /\
  (forall cb d, pending cb d l = expected_pending events n cb d) /\
  (forall trigger d,
      In trigger ["spa_navigation"; "page_load"; "environment"; "heartbeat"] ->
      sent_count trigger d l = expected_sent events n trigger d).

End Scheduler.
(* ================================================================== *)
(** ** Properties *)
(* ================================================================== *)

Module ObjFacts.
Import Js Spec.

Lemma obj_get_set_same (o : Obj) (k : string) (v : JsVal) :
  obj_get (obj_set o k v) k = v.
Proof.
  induction o as [|[k' v'] rest IH]; simpl.
  - now rewrite String.eqb_refl.
  - destruct (String.eqb k' k) eqn:E; simpl; rewrite E; auto.
Qed.

Lemma obj_get_set_other (o : Obj) (k k' : string) (v : JsVal) :
  k <> k' -> obj_get (obj_set o k v) k' = obj_get o k'.
Proof.
  intros Hne. induction o as [|[k0 v0] rest IH]; simpl.
  - destruct (String.eqb k k') eqn:E; auto.
    apply String.eqb_eq in E. contradiction.
  - destruct (String.eqb k0 k) eqn:E; simpl.
    + apply String.eqb_eq in E. subst k0.
      destruct (String.eqb k k') eqn:E'; auto.
      apply String.eqb_eq in E'. contradiction.
    + now rewrite IH.
Qed.







End ObjFacts.

Module IdentityFacts.
Import Js Browser Config Spec ObjFacts.

(** The two identity keys of [{ ...data, ...rumIds }]. *)
Lemma spread_rumIds_session (c : Ctx) (o : Obj) :
  obj_get (obj_spread o (rumIds c)) "session_id" = JStr (sessionId c).
Proof.
  unfold obj_spread, rumIds. simpl.
  rewrite obj_get_set_other by discriminate.
  apply obj_get_set_same.
Qed.

Lemma spread_rumIds_endpoint (c : Ctx) (o : Obj) :
  obj_get (obj_spread o (rumIds c)) "endpoint_id" = endpointId c.
Proof.
  unfold obj_spread, rumIds. simpl. apply obj_get_set_same.
Qed.

(** A key other than the identity keys is read from the event data. *)
Lemma spread_rumIds_other (c : Ctx) (o : Obj) (k : string) :
  k <> "session_id" -> k <> "endpoint_id" ->
  obj_get (obj_spread o (rumIds c)) k = obj_get o k.
Proof.
  intros H1 H2. unfold obj_spread, rumIds. simpl.
  rewrite !obj_get_set_other; auto.
Qed.

Lemma post_body (c : Ctx) (u : string) (payload : Obj) (b : bool) :
  body (Rum.post c u payload b) = payload.
Proof. unfold Rum.post. now destruct (andb b (sendBeaconAvailable c)). Qed.

(** C9.  Every payload built by [sendMetrics] or [sendError], in each of the
    three scripts, reads back the session and endpoint identifiers captured
    at initialisation: the identity is written after the event data, so
    [session_id] / [endpoint_id] keys of the event cannot override it. *)
Theorem identity_not_overridable (c : Ctx) (data : Obj) :
  carries_identity c (Rum.sendMetrics c data) /\
  carries_identity c (Rum.sendError c data) /\
  carries_identity c (RumSass.sendMetrics c data) /\
  carries_identity c (RumSass.sendError c data) /\
  carries_identity c (RumLegacy.sendMetrics c data).
Proof.
  unfold carries_identity, Rum.sendMetrics, Rum.sendError,
    RumSass.sendMetrics, RumSass.sendError, RumLegacy.sendMetrics.
  rewrite !post_body.
  repeat split;
    try (destruct (sendBeaconAvailable c); simpl body);
    try apply spread_rumIds_session;
    try apply spread_rumIds_endpoint;
    try apply obj_get_set_same;
    try (rewrite obj_get_set_other by discriminate; apply obj_get_set_same).
Qed.

(** An event that tries to spoof both keys. *)
Example spoofed_identity_is_replaced :
  let c := mkCtx (JStr "ep-1") "http://api" "http://err" "sess-1" true 0 in
  body (Rum.sendMetrics c [("session_id", JStr "forged");
                           ("trigger", JStr "business_metric");
                           ("endpoint_id", JStr "forged")])
  = [("session_id", JStr "sess-1");
     ("trigger", JStr "business_metric");
     ("endpoint_id", JStr "ep-1")].
Proof. reflexivity. Qed.

End IdentityFacts.

Module DeliveryFacts.
Import Js Browser Config Spec ObjFacts.

Lemma Rum_sendError_path (c : Ctx) (data : Obj) :
  errors_path c (Rum.sendError c data).
Proof. split; reflexivity. Qed.

Lemma Rum_sendMetrics_path (c : Ctx) (data : Obj) :
  metrics_path c (Rum.sendMetrics c data).
Proof.
  unfold metrics_path, Rum.sendMetrics, Rum.post.
  destruct (sendBeaconAvailable c); simpl; repeat split; auto; discriminate.
Qed.

Lemma Sass_sendError_path (c : Ctx) (data : Obj) :
  errors_path c (RumSass.sendError c data).
Proof. split; reflexivity. Qed.

Lemma Sass_sendMetrics_path (c : Ctx) (data : Obj) :
  metrics_path c (RumSass.sendMetrics c data).
Proof.
  unfold metrics_path, RumSass.sendMetrics.
  destruct (sendBeaconAvailable c); simpl; repeat split; auto; discriminate.
Qed.

(** The trigger of a payload is the trigger of the event data. *)
Lemma trigger_spread_rumIds (c : Ctx) (o : Obj) :
  obj_get (obj_spread o (rumIds c)) "trigger" = obj_get o "trigger".
Proof. apply IdentityFacts.spread_rumIds_other; discriminate. Qed.


Lemma Rum_sendMetrics_trigger (c : Ctx) (data : Obj) :
  trigger_of (Rum.sendMetrics c data) = obj_get (obj_spread [] data) "trigger".
Proof.
  unfold trigger_of, Rum.sendMetrics. rewrite IdentityFacts.post_body.
  apply trigger_spread_rumIds.
Qed.

End DeliveryFacts.

Module RoutingFacts.
Import Js Browser Config Spec ObjFacts DeliveryFacts.

(** Settles [routed] / [error_on_errors_path] on an envelope whose trigger
    is a literal. *)
Ltac route c :=
  unfold routed, error_on_errors_path, errors_path, metrics_path,
    is_error_envelope, has_trigger, trigger_of,
    Rum.sendError, Rum.sendMetrics, Rum.post,
    RumSass.sendError, RumSass.sendMetrics;
  destruct (sendBeaconAvailable c) eqn:?; simpl; repeat split; auto.

Lemma Rum_fetch_routed (c : Ctx) (net : FetchInput -> FetchInit -> Outcome)
      (t0 t1 : Q) (input : FetchInput) (init : option FetchInit) :
  Forall (routed c) (fst (Rum.patch_fetch c (native_fetch net) t0 t1 input init)).
Proof.
  unfold Rum.patch_fetch, native_fetch.
  destruct (net input (inject_headers c init)) as [r|err]; simpl.
  - constructor; [|constructor].
    destruct (Z.leb 400 (status r)); route c.
  - constructor; [|constructor]. route c.
Qed.

Lemma Rum_xhr_log (c : Ctx) (tOpen : Q) (m : option string) (u : string)
      (tEnd : Q) (st : Z) :
  exists x,
    reqData x <> None /\ xhr_status x = st /\
    snd (Rum.xhr_request c (Rum.patch_open c (Rum.xhr_native_open c))
           tOpen m u tEnd st) = Rum.on_loadend c tEnd x.
Proof.
  exists (fst (Rum.xhr_request c (Rum.patch_open c (Rum.xhr_native_open c))
                 tOpen m u tEnd st)).
  split; [|split]; [simpl; discriminate|reflexivity|reflexivity].
Qed.

Lemma Rum_on_loadend_routed (c : Ctx) (now : Q) (x : Rum.RumXhr) :
  Forall (routed c) (Rum.on_loadend c now x).
Proof.
  unfold Rum.on_loadend. destruct (reqData x); [|constructor].
  constructor; [|constructor].
  destruct (Z.leb 400 (xhr_status x)); route c.
Qed.

Lemma Rum_xhr_routed (c : Ctx) (tOpen : Q) (m : option string) (u : string)
      (tEnd : Q) (st : Z) :
  Forall (routed c)
    (snd (Rum.xhr_request c (Rum.patch_open c (Rum.xhr_native_open c))
            tOpen m u tEnd st)).
Proof.
  destruct (Rum_xhr_log c tOpen m u tEnd st) as (x & _ & _ & ->).
  apply Rum_on_loadend_routed.
Qed.

Lemma Sass_fetch_routed (c : Ctx) (net : FetchInput -> FetchInit -> Outcome)
      (t0 t1 : Q) (input : FetchInput) (init : option FetchInit) :
  Forall (routed c)
    (fst (RumSass.patch_fetch c (native_fetch net) t0 t1 input init)).
Proof.
  unfold RumSass.patch_fetch, native_fetch.
  destruct (net input (inject_headers c init)) as [r|err]; simpl.
  - constructor; [|constructor].
    destruct (Z.leb 400 (status r)); route c.
  - destruct (get_prop err "message"); simpl; [|constructor].
    constructor; [|constructor]. route c.
Qed.

Lemma Sass_xhr_log (c : Ctx) (tOpen : Q) (m : option string) (u : string)
      (tEnd : Q) (st : Z) :
  exists x,
    reqData x <> None /\ xhr_status x = st /\
    snd (RumSass.xhr_request c tOpen m u tEnd st) = RumSass.on_loadend c tEnd x.
Proof.
  exists (fst (RumSass.xhr_request c tOpen m u tEnd st)).
  split; [|split]; [simpl; discriminate|reflexivity|reflexivity].
Qed.

Lemma Sass_on_loadend_routed (c : Ctx) (now : Q) (x : RumSass.SassXhr) :
  Forall (routed c) (RumSass.on_loadend c now x).
Proof.
  unfold RumSass.on_loadend. destruct (reqData x); [|constructor].
  constructor; [|constructor].
  destruct (Z.leb 400 (xhr_status x)); route c.
Qed.

(** C6.  In the current agent and in the first rum-sass.js script, an error
    envelope (uncaught error, unhandled rejection, error or exception
    network record) always leaves through a standard request to the errors
    endpoint, whether or not the browser has sendBeacon; a metrics envelope
    leaves through sendBeacon when the browser has it and through a
    standard request to the metrics endpoint otherwise. *)
Theorem error_and_metrics_paths (c : Ctx) :
  (forall data, errors_path c (Rum.sendError c data)) /\
  (forall data, metrics_path c (Rum.sendMetrics c data)) /\
  (forall ev, Forall (error_on_errors_path c) (Rum.on_error c ev)) /\
  (forall reason,
      Forall (error_on_errors_path c) (Rum.on_unhandledrejection c reason)) /\
  (forall net t0 t1 input init,
      Forall (routed c)
        (fst (Rum.patch_fetch c (native_fetch net) t0 t1 input init))) /\
  (forall tOpen m u tEnd st,
      Forall (routed c)
        (snd (Rum.xhr_request c (Rum.patch_open c (Rum.xhr_native_open c))
                tOpen m u tEnd st))) /\
  (forall data, errors_path c (RumSass.sendError c data)) /\
  (forall data, metrics_path c (RumSass.sendMetrics c data)) /\
  (forall ev, Forall (error_on_errors_path c) (RumSass.on_error c ev)) /\
  (forall reason,
      Forall (error_on_errors_path c) (RumSass.on_unhandledrejection c reason)) /\
  (forall net t0 t1 input init,
      Forall (routed c)
        (fst (RumSass.patch_fetch c (native_fetch net) t0 t1 input init))) /\
  (forall tOpen m u tEnd st,
      Forall (routed c) (snd (RumSass.xhr_request c tOpen m u tEnd st))).
Proof.
  repeat match goal with |- _ /\ _ => split end.
  - apply Rum_sendError_path.
  - apply Rum_sendMetrics_path.
  - intros ev. constructor; [|constructor]. route c.
  - intros reason. constructor; [|constructor]. route c.
  - apply Rum_fetch_routed.
  - apply Rum_xhr_routed.
  - apply Sass_sendError_path.
  - apply Sass_sendMetrics_path.
  - intros ev. constructor; [|constructor]. route c.
  - intros reason. constructor; [|constructor]. route c.
  - apply Sass_fetch_routed.
  - intros tOpen m u tEnd st.
    destruct (Sass_xhr_log c tOpen m u tEnd st) as (x & _ & _ & ->).
    apply Sass_on_loadend_routed.
Qed.

(** The channels at work: the beacon for metrics, a request for errors,
    and a request for metrics on a browser without sendBeacon. *)
Example channels_at_work :
  via (Rum.sendMetrics example_ctx [("trigger", JStr "heartbeat")]) = SendBeacon /\
  via (Rum.sendError example_ctx [("trigger", JStr "js_error")])
  = FetchRequest true /\
  via (Rum.sendMetrics example_ctx_no_beacon [("trigger", JStr "heartbeat")])
  = FetchRequest true.
Proof. repeat split. Qed.

End RoutingFacts.

Module RecordFacts.
Import Js Browser Config Spec ObjFacts DeliveryFacts RoutingFacts.

Ltac classify c :=
  unfold classified_by_status, error_records, metric_records, exception_records,
    count_trigger, has_trigger, trigger_of,
    Rum.sendError, Rum.sendMetrics, Rum.post,
    RumSass.sendError, RumSass.sendMetrics, RumLegacy.sendMetrics;
  destruct (sendBeaconAvailable c) eqn:?; simpl; repeat split; auto.

Lemma Rum_on_loadend_classified (c : Ctx) (now : Q) (x : Rum.RumXhr) :
  reqData x <> None ->
  classified_by_status (xhr_status x) (Rum.on_loadend c now x).
Proof.
  unfold Rum.on_loadend, classified_by_status.
  destruct (reqData x); [intros _|congruence].
  destruct (Z.leb 400 (xhr_status x)); classify c.
Qed.

Lemma Sass_on_loadend_classified (c : Ctx) (now : Q) (x : RumSass.SassXhr) :
  reqData x <> None ->
  classified_by_status (xhr_status x) (RumSass.on_loadend c now x).
Proof.
  unfold RumSass.on_loadend, classified_by_status.
  destruct (reqData x); [intros _|congruence].
  destruct (Z.leb 400 (xhr_status x)); classify c.
Qed.

Lemma Legacy_xhr_log (c : Ctx) (href : string) (tOpen : Q) (m : option string)
      (u : string) (tEnd : Q) (st : Z) :
  exists x,
    reqData x <> None /\ xhr_status x = st /\
    snd (RumLegacy.xhr_request c href tOpen m u tEnd st)
    = RumLegacy.on_loadend c href tEnd x.
Proof.
  exists (fst (RumLegacy.xhr_request c href tOpen m u tEnd st)).
  split; [|split]; [simpl; discriminate|reflexivity|reflexivity].
Qed.

Lemma Legacy_on_loadend_unclassified (c : Ctx) (href : string) (now : Q)
      (x : RumLegacy.LegacyXhr) :
  reqData x <> None ->
  let log := RumLegacy.on_loadend c href now x in
  List.length log = 1%nat /\ metric_records log = 1%nat /\
  error_records log = 0%nat /\ Forall (metrics_legacy_path c) log.
Proof.
  unfold RumLegacy.on_loadend. destruct (reqData x); [intros _|congruence].
  unfold metrics_legacy_path. classify c.
Qed.

End RecordFacts.

Module RejectionFacts.
Import Js Browser Config Spec ObjFacts DeliveryFacts RecordFacts.

(** The current agent: a rejected call is reported once, with the message
    of the failure, and rejects with the same value. *)
Lemma Rum_fetch_rejection_reported (c : Ctx)
      (net : FetchInput -> FetchInit -> Outcome) (t0 t1 : Q)
      (input : FetchInput) (init : option FetchInit) (err : JsVal) :
  net input (inject_headers c init) = Rejected err ->
  exists d,
    Rum.patch_fetch c (native_fetch net) t0 t1 input init = ([d], Rejected err) /\
    trigger_of d = JStr "api_call_exception" /\
    errors_path c d /\
    (exists api, obj_get (body d) "api" = JObj api /\
                 obj_get api "error" = Rum.failure_message err /\
                 obj_get api "status" = JNull).
Proof.
  intros H. unfold Rum.patch_fetch, native_fetch. rewrite H. simpl.
  eexists. split; [reflexivity|].
  split; [reflexivity|]. split; [split; reflexivity|].
  eexists. split; [reflexivity|]. split; reflexivity.
Qed.

(** The first rum-sass.js script does the same whenever the rejection
    value is not null or undefined. *)
Lemma Sass_fetch_rejection_reported (c : Ctx)
      (net : FetchInput -> FetchInit -> Outcome) (t0 t1 : Q)
      (input : FetchInput) (init : option FetchInit) (err msg : JsVal) :
  net input (inject_headers c init) = Rejected err ->
  get_prop err "message" = Some msg ->
  exists d,
    RumSass.patch_fetch c (native_fetch net) t0 t1 input init
    = ([d], Rejected err) /\
    trigger_of d = JStr "api_call_exception" /\
    errors_path c d /\
    (exists api, obj_get (body d) "api" = JObj api /\
                 obj_get api "error" = msg).
Proof.
  intros H Hm. unfold RumSass.patch_fetch, native_fetch. rewrite H. simpl.
  rewrite Hm.
  eexists. split; [reflexivity|].
  split; [reflexivity|]. split; [split; reflexivity|].
  eexists. split; reflexivity.
Qed.

(** C2, the first rum-sass.js script at a null rejection.  The underlying
    fetch rejects with null; reading [err.message] throws inside the catch
    handler, so no record at all is sent and the caller's promise rejects
    with a TypeError instead of the original value. *)
Theorem Sass_fetch_null_rejection_lost (c : Ctx) (t0 t1 : Q)
        (input : FetchInput) (init : option FetchInit) :
  let result :=
    RumSass.patch_fetch c (native_fetch (fun _ _ => Rejected JNull))
      t0 t1 input init in
  fst result = [] /\
  exception_records (fst result) = 0%nat /\
  snd result = Rejected (TypeError_nullish_read "message") /\
  snd result <> Rejected JNull.
Proof.
  simpl. repeat split. discriminate.
Qed.

(** The same call under the current agent. *)
Example Rum_fetch_null_rejection_kept :
  let result :=
    Rum.patch_fetch example_ctx (native_fetch (fun _ _ => Rejected JNull))
      0 25 (InputString "/api/orders") None in
  exception_records (fst result) = 1%nat /\ snd result = Rejected JNull.
Proof. split; reflexivity. Qed.

(** A string rejection value (an abort reason) under both scripts: the
    current agent reports the string, the first rum-sass.js script reports
    undefined. *)
Example string_rejection_message :
  Rum.failure_message (JStr "timeout") = JStr "timeout" /\
  get_prop (JStr "timeout") "message" = Some JUndefined.
Proof. split; reflexivity. Qed.

End RejectionFacts.

Module SessionEndFacts.
Import Js Browser Config Spec ObjFacts DeliveryFacts.
Import Rum.

Lemma count_trigger_app (t : string) (l1 l2 : list Delivery) :
  count_trigger t (l1 ++ l2) = (count_trigger t l1 + count_trigger t l2)%nat.
Proof. unfold count_trigger. now rewrite filter_app, length_app. Qed.

Lemma UnloadEvent_eqb_eq (a b : UnloadEvent) :
  UnloadEvent_eqb a b = true <-> a = b.
Proof. destruct a, b; simpl; split; congruence. Qed.

Lemma UnloadEvent_eqb_refl (a : UnloadEvent) : UnloadEvent_eqb a a = true.
Proof. now destruct a. Qed.

(** The listener sends one session-end envelope or nothing, as its guard
    says. *)
Lemma listener_count (c : Ctx) (ss : option Q) (evt : UnloadEvent)
      (o : Occurrence) :
  session_end_count (session_end_listener c ss evt o)
  = if sends_on evt o then 1%nat else 0%nat.
Proof.
  unfold session_end_listener, sends_on.
  destruct (orb _ _); [|reflexivity].
  unfold session_end_count, count_trigger, has_trigger.
  simpl. rewrite Rum_sendMetrics_trigger. reflexivity.
Qed.

Lemma listener_all_session_end (c : Ctx) (ss : option Q) (evt : UnloadEvent)
      (o : Occurrence) :
  Forall (fun d => trigger_of d = JStr "session_end" /\ metrics_path c d)
         (session_end_listener c ss evt o).
Proof.
  unfold session_end_listener. destruct (orb _ _); constructor; [|constructor].
  split; [now rewrite Rum_sendMetrics_trigger | apply Rum_sendMetrics_path].
Qed.

Lemma envelopes_of_nil (r : Registered) : envelopes_of r [] = 0%nat.
Proof. unfold envelopes_of. induction r; simpl; auto. Qed.

Lemma envelopes_from_cons (evt : UnloadEvent) (o : Occurrence)
      (os : list Occurrence) :
  envelopes_from evt (o :: os)
  = if UnloadEvent_eqb (occ_evt o) evt
    then (if sends_on evt o then 1%nat else 0%nat)
    else envelopes_from evt os.
Proof.
  unfold envelopes_from. simpl. now destruct (UnloadEvent_eqb (occ_evt o) evt).
Qed.

(** An occurrence nobody listens to any more changes nothing. *)
Lemma envelopes_of_unheard (r : Registered) (o : Occurrence)
      (os : list Occurrence) :
  existsb (UnloadEvent_eqb (occ_evt o)) r = false ->
  envelopes_of r (o :: os) = envelopes_of r os.
Proof.
  unfold envelopes_of. induction r as [|e r IH]; simpl; intros H; auto.
  apply orb_false_iff in H. destruct H as [He Hr].
  rewrite envelopes_from_cons, He, IH by assumption. reflexivity.
Qed.

(** An occurrence that is heard is consumed by its listener. *)
Lemma envelopes_of_heard (r : Registered) (o : Occurrence)
      (os : list Occurrence) :
  NoDup r ->
  existsb (UnloadEvent_eqb (occ_evt o)) r = true ->
  envelopes_of r (o :: os)
  = ((if sends_on (occ_evt o) o then 1 else 0)
     + envelopes_of (unregister (occ_evt o) r) os)%nat.
Proof.
  unfold envelopes_of. induction r as [|e r IH]; simpl; intros Hnd H.
  - discriminate.
  - inversion Hnd as [|? ? Hnotin Hnd']; subst.
    rewrite envelopes_from_cons.
    destruct (UnloadEvent_eqb (occ_evt o) e) eqn:E.
    + apply UnloadEvent_eqb_eq in E. subst e.
      rewrite UnloadEvent_eqb_refl. f_equal.
      assert (Hun : existsb (UnloadEvent_eqb (occ_evt o)) r = false).
      { apply not_true_is_false. intros Hex.
        apply existsb_exists in Hex. destruct Hex as (e' & Hin & He').
        apply UnloadEvent_eqb_eq in He'. subst e'. contradiction. }
      apply (envelopes_of_unheard r o os Hun).
    + simpl in H.
      assert (E' : UnloadEvent_eqb e (occ_evt o) = false).
      { destruct e, (occ_evt o); simpl in *; congruence. }
      rewrite E'. simpl. rewrite IH by assumption. lia.
Qed.

Lemma unregister_incl (evt : UnloadEvent) (r : Registered) (e : UnloadEvent) :
  In e (unregister evt r) -> In e r.
Proof.
  induction r as [|a r IH]; simpl; auto.
  destruct (UnloadEvent_eqb a evt); simpl; intuition.
Qed.

Lemma unregister_NoDup (evt : UnloadEvent) (r : Registered) :
  NoDup r -> NoDup (unregister evt r).
Proof.
  induction r as [|a r IH]; simpl; intros H; auto.
  inversion H; subst.
  destruct (UnloadEvent_eqb a evt); auto.
  constructor; auto. intros Hin. apply unregister_incl in Hin. contradiction.
Qed.

(** Whatever is still registered, the envelopes sent are one per listener
    whose guard holds at the first occurrence of its event. *)
Lemma run_events_count (c : Ctx) (ss : option Q) (os : list Occurrence) :
  forall r, NoDup r ->
  session_end_count (snd (run_events c ss r os)) = envelopes_of r os.
Proof.
  induction os as [|o os IH]; intros r Hnd; simpl.
  - now rewrite envelopes_of_nil.
  - unfold dispatch.
    destruct (existsb (UnloadEvent_eqb (occ_evt o)) r) eqn:Hex.
    + specialize (IH (unregister (occ_evt o) r) (unregister_NoDup _ _ Hnd)).
      destruct (run_events c ss (unregister (occ_evt o) r) os) as [r2 log2].
      simpl in *. unfold session_end_count in *.
      rewrite count_trigger_app.
      fold (session_end_count (session_end_listener c ss (occ_evt o) o)).
      rewrite listener_count, IH.
      now rewrite envelopes_of_heard.
    + specialize (IH r Hnd).
      destruct (run_events c ss r os) as [r2 log2]. simpl in *.
      rewrite IH. now rewrite envelopes_of_unheard.
Qed.

Lemma run_events_all_session_end (c : Ctx) (ss : option Q)
      (os : list Occurrence) :
  forall r,
  Forall (fun d => trigger_of d = JStr "session_end" /\ metrics_path c d)
         (snd (run_events c ss r os)).
Proof.
  induction os as [|o os IH]; intros r; simpl.
  - constructor.
  - unfold dispatch.
    destruct (existsb (UnloadEvent_eqb (occ_evt o)) r).
    + specialize (IH (unregister (occ_evt o) r)).
      destruct (run_events c ss (unregister (occ_evt o) r) os) as [r2 log2].
      simpl in *. apply Forall_app. split; auto.
      apply listener_all_session_end.
    + specialize (IH r). destruct (run_events c ss r os). exact IH.
Qed.

Lemma envelopes_from_le_1 (evt : UnloadEvent) (os : list Occurrence) :
  (envelopes_from evt os <= 1)%nat.
Proof.
  unfold envelopes_from. destruct (find _ os); [destruct (sends_on _ _)|]; lia.
Qed.

(** C1 (as amended).  Each of the three listeners is one-shot: it sees the
    first occurrence of its own event only.  The pagehide and beforeunload
    listeners send one session-end envelope when their event first fires,
    the visibilitychange listener sends one when its first event finds the
    document hidden.  A sequence of unload events therefore sends one
    envelope per listener that fired this way, at most three, every one of
    them a session_end envelope on the metrics path. *)
Theorem session_end_per_listener (c : Ctx) (session_start : option Q)
        (os : list Occurrence) :
  let log := unload_sequence c session_start os in
  session_end_count log
  = (envelopes_from PageHide os + envelopes_from VisibilityChange os
     + envelopes_from BeforeUnload os)%nat /\
  (session_end_count log <= 3)%nat /\
  Forall (fun d => trigger_of d = JStr "session_end" /\ metrics_path c d) log.
Proof.
  assert (Hnd : NoDup register_session_end).
  { unfold register_session_end.
    repeat constructor; simpl; intuition discriminate. }
  assert (H : session_end_count (unload_sequence c session_start os)
              = (envelopes_from PageHide os + envelopes_from VisibilityChange os
                 + envelopes_from BeforeUnload os)%nat).
  { unfold unload_sequence. rewrite run_events_count by exact Hnd.
    unfold envelopes_of, register_session_end. simpl. lia. }
  simpl. split; [exact H|]. split.
  - rewrite H.
    pose proof (envelopes_from_le_1 PageHide os).
    pose proof (envelopes_from_le_1 VisibilityChange os).
    pose proof (envelopes_from_le_1 BeforeUnload os). lia.
  - apply run_events_all_session_end.
Qed.

(** pagehide immediately followed by beforeunload: two session-end
    envelopes, not one. *)
Lemma pagehide_then_beforeunload_sends_two :
  session_end_count
    (unload_sequence example_ctx (Some 4000) pagehide_then_beforeunload) = 2%nat
  /\ ~ one_session_end example_ctx (Some 4000) pagehide_then_beforeunload.
Proof.
  split; [reflexivity|]. unfold one_session_end. intros H. discriminate H.
Qed.

(** The order in which a browser unloads a page: all three listeners send. *)
Example full_unload_sends_three :
  session_end_count
    (unload_sequence example_ctx (Some 4000)
       [mkOcc BeforeUnload Visible 5000;
        mkOcc PageHide Visible 5001;
        mkOcc VisibilityChange Hidden 5002]) = 3%nat.
Proof. reflexivity. Qed.

(** A page opened in a background tab: the first visibilitychange finds
    the document visible and uses up the listener. *)
Example first_visibilitychange_visible_sends_nothing :
  session_end_count
    (unload_sequence example_ctx (Some 4000)
       [mkOcc VisibilityChange Visible 5000;
        mkOcc VisibilityChange Hidden 6000]) = 0%nat.
Proof. reflexivity. Qed.

End SessionEndFacts.

Module ReuseFacts.
Import Js Browser Config Spec ObjFacts DeliveryFacts RecordFacts SessionEndFacts.

(** **** Lists of copies *)

Lemma length_concat_repeat {A : Type} (l : list A) (n : nat) :
  List.length (List.concat (repeat l n)) = (n * List.length l)%nat.
Proof.
  induction n as [|n IH]; [reflexivity|].
  simpl. now rewrite length_app, IH.
Qed.

Lemma concat_repeat_add {A : Type} (l : list A) (a b : nat) :
  List.concat (repeat l a) ++ List.concat (repeat l b)
  = List.concat (repeat l (a + b)).
Proof. now rewrite repeat_app, concat_app. Qed.

Lemma concat_repeat_nil {A : Type} (k : nat) :
  List.concat (repeat (@nil A) k) = [].
Proof. induction k as [|k IH]; [reflexivity|exact IH]. Qed.

Lemma each_request_impl {X : Type} (P P' : nat -> XhrCall -> X -> Prop) :
  (forall i r x, P i r x -> P' i r x) ->
  forall rs i results,
    each_request P i rs results -> each_request P' i rs results.
Proof.
  intros HP. induction rs as [|r rs IH]; intros i [|x results] H; auto.
  destruct H as [H1 H2]. split; [now apply HP|now apply IH].
Qed.

(** **** XMLHttpRequest *)

Lemma open_after_prepare (c : Ctx) (n : nat) (now : Q) (m : option string)
      (u : string) :
  forall x,
    Rum.open_after c n now m u x
    = Rum.xhr_native_open c now m u (Nat.iter n (prepare m u) x).
Proof.
  unfold Rum.open_after.
  induction n as [|n IH]; intros x.
  - reflexivity.
  - change (Nat.iter (S n) (Rum.patch_open c) (Rum.xhr_native_open c))
      with (Rum.patch_open c
              (Nat.iter n (Rum.patch_open c) (Rum.xhr_native_open c))).
    unfold Rum.patch_open at 1. rewrite IH.
    rewrite Nat.iter_succ_r. reflexivity.
Qed.

Lemma prepared_fields (m : option string) (u : string) (n : nat) :
  forall x : Rum.RumXhr,
    listeners (Nat.iter n (prepare m u) x) = listeners x ++ shim_listeners n /\
    readyState (Nat.iter n (prepare m u) x) = readyState x /\
    (n <> 0%nat -> reqData (Nat.iter n (prepare m u) x) <> None).
Proof.
  induction n as [|n IH]; intros x.
  - simpl. rewrite app_nil_r. repeat split. congruence.
  - rewrite Nat.iter_succ_r.
    destruct (IH (prepare m u x)) as (Hl & Hr & Hd).
    rewrite Hl, Hr. unfold shim_listeners. simpl.
    rewrite <- !app_assoc. simpl. repeat split.
    intros _. destruct n as [|n'].
    + simpl. discriminate.
    + apply Hd. discriminate.
Qed.

(** While the state is OPENED every readystatechange listener of the shim
    sets the two headers. *)
Lemma ready_listeners_opened (c : Ctx) (now : Q) (n : nat) :
  forall x : Rum.RumXhr,
    readyState x = 1%Z ->
    let result :=
      run_all (Rum.run_listener c) (shim_listeners n) ReadyStateChange now x in
    snd result = [] /\
    readyState (fst result) = 1%Z /\
    listeners (fst result) = listeners x /\
    xhr_status (fst result) = xhr_status x /\
    (reqData x <> None -> reqData (fst result) <> None) /\
    requestHeaders (fst result) = requestHeaders x ++ shim_headers c n.
Proof.
  induction n as [|n IH]; intros x Hx.
  - simpl. rewrite app_nil_r. repeat split; auto.
  - unfold shim_listeners, shim_headers. simpl.
    fold (shim_listeners n). fold (shim_headers c n).
    set (x1 := Rum.on_readystatechange c now x).
    assert (H1 : readyState x1 = 1%Z /\ listeners x1 = listeners x /\
                 xhr_status x1 = xhr_status x /\
                 (reqData x <> None -> reqData x1 <> None) /\
                 requestHeaders x1
                 = requestHeaders x ++ [("X-RUM-Session-Id", JStr (sessionId c));
                                        ("X-RUM-Endpoint-Id", endpointId c)]).
    { unfold x1, Rum.on_readystatechange, setRequestHeader.
      destruct x as [rd ls rs stt hs]. simpl in Hx. subst rs. simpl.
      destruct rd; simpl; rewrite <- ?app_assoc; simpl;
        repeat split; auto; congruence. }
    destruct H1 as (Hr & Hl & Hs & Hd & Hh).
    destruct (IH x1 Hr) as (I1 & I2 & I3 & I4 & I5 & I6).
    destruct (run_all (Rum.run_listener c) (shim_listeners n)
                ReadyStateChange now x1) as [x2 log2].
    simpl in *. subst log2.
    repeat split; try congruence; auto.
    rewrite I6, Hh, <- app_assoc. reflexivity.
Qed.

(** In any other state they do nothing. *)
Lemma ready_listeners_idle (c : Ctx) (now : Q) (n : nat) (x : Rum.RumXhr) :
  readyState x <> 1%Z ->
  run_all (Rum.run_listener c) (shim_listeners n) ReadyStateChange now x
  = (x, []).
Proof.
  intros Hx. induction n as [|n IH]; [reflexivity|].
  unfold shim_listeners. simpl. fold (shim_listeners n).
  unfold Rum.on_readystatechange.
  apply Z.eqb_neq in Hx. rewrite Hx. rewrite IH. reflexivity.
Qed.

(** Every loadend listener of the shim emits its own record. *)
Lemma loadend_listeners (c : Ctx) (now : Q) (n : nat) (x : Rum.RumXhr) :
  run_all (Rum.run_listener c) (shim_listeners n) LoadEnd now x
  = (x, List.concat (repeat (Rum.on_loadend c now x) n)).
Proof.
  induction n as [|n IH]; [reflexivity|].
  unfold shim_listeners. simpl. fold (shim_listeners n).
  rewrite IH. reflexivity.
Qed.

Lemma count_trigger_repeat (t : string) (l : list Delivery) (n : nat) :
  count_trigger t (List.concat (repeat l n)) = (n * count_trigger t l)%nat.
Proof.
  induction n as [|n IH]; [reflexivity|].
  simpl. rewrite count_trigger_app, IH. reflexivity.
Qed.




(** **** Requests made one after the other on one object *)

Lemma records_by_status_repeat (st : Z) (l : list Delivery) (m : nat) :
  classified_by_status st l ->
  records_by_status m st (List.concat (repeat l m)).
Proof.
  intros (Hl & He & Hm).
  unfold records_by_status, error_records, metric_records in *.
  rewrite length_concat_repeat, !count_trigger_repeat, Hl, He, Hm.
  destruct (Z.leb 400 st); repeat split; lia.
Qed.

Lemma records_by_status_none (st : Z) : records_by_status 0 st [].
Proof. unfold records_by_status. now destruct (Z.leb 400 st). Qed.

Section Reuse.

(** A script whose [open] wrapper registers the listeners [added]; fired
    together, [k] copies of them set the headers [hdrs] [k] times when the
    object has just been opened, do nothing at any other change of state,
    and send [emit] [k] times when the request is over. *)
Variables R L : Type.
Variable run : L -> Q -> Xhr R L -> Xhr R L * list Delivery.
Variable added : list (XhrEvent * L).
Variable hdrs : list (string * JsVal).
Variable emit : Q -> Xhr R L -> list Delivery.

Hypothesis ready_opened :
  forall (now : Q) (k : nat) (x : Xhr R L),
    readyState x = 1%Z ->
    let result :=
      run_all run (List.concat (repeat added k)) ReadyStateChange now x in
    snd result = [] /\
    readyState (fst result) = 1%Z /\
    listeners (fst result) = listeners x /\
    xhr_status (fst result) = xhr_status x /\
    (reqData x <> None -> reqData (fst result) <> None) /\
    requestHeaders (fst result)
    = requestHeaders x ++ List.concat (repeat hdrs k).

Hypothesis ready_idle :
  forall (now : Q) (k : nat) (x : Xhr R L),
    readyState x <> 1%Z ->
    run_all run (List.concat (repeat added k)) ReadyStateChange now x = (x, []).

Hypothesis loadend :
  forall (now : Q) (k : nat) (x : Xhr R L),
    run_all run (List.concat (repeat added k)) LoadEnd now x
    = (x, List.concat (repeat (emit now x) k)).

(** The platform's [open] and the completion of the request on an object
    that carries [k] copies of the listeners. *)
Lemma native_request (k : nat) (tOpen : Q) (m : option string) (u : string)
      (tEnd : Q) (st : Z) (x0 : Xhr R L) :
  readyState x0 <> 1%Z ->
  listeners x0 = List.concat (repeat added k) ->
  let opened := native_open run tOpen m u x0 in
  let done := complete run tEnd st (fst opened) in
  snd opened = [] /\
  (exists x, xhr_status x = st /\
             (reqData x0 <> None -> reqData x <> None) /\
             snd done = List.concat (repeat (emit tEnd x) k)) /\
  readyState (fst done) = 4%Z /\
  listeners (fst done) = List.concat (repeat added k) /\
  requestHeaders (fst done) = List.concat (repeat hdrs k).
Proof.
  intros Hr Hl. cbv zeta.
  destruct x0 as [rd ls rs stt hs]. simpl in Hr, Hl. subst ls.
  unfold native_open. simpl readyState.
  apply Z.eqb_neq in Hr. rewrite Hr. unfold fire.
  cbn [reqData listeners readyState xhr_status requestHeaders].
  set (x1 := mkXhr _ _ rd (List.concat (repeat added k)) 1 0 []).
  destruct (ready_opened tOpen k x1 eq_refl)
    as (I1 & I2 & I3 & I4 & I5 & I6).
  destruct (run_all run (List.concat (repeat added k))
              ReadyStateChange tOpen x1) as [x2 log2].
  simpl in I1, I2, I3, I4, I5, I6. subst log2.
  destruct x2 as [rd2 ls2 rs2 st2 hs2]. simpl in I2, I3, I4, I5, I6.
  subst ls2 hs2.
  unfold complete, fire.
  cbn [fst reqData listeners readyState xhr_status requestHeaders].
  rewrite ready_idle by (simpl; discriminate).
  cbn [reqData listeners readyState xhr_status requestHeaders].
  rewrite loadend. simpl.
  repeat split; auto.
  eexists. split; [|split]; [| |reflexivity]; [reflexivity|exact I5].
Qed.

(** What [open] does before it calls the platform's [open]: [per] more
    copies of the listeners on the object. *)
Variable open : OpenFn R L.
Variable prep : Q -> option string -> string -> Xhr R L -> Xhr R L.
Variable per : nat.

Hypothesis open_prep :
  forall now m u x, open now m u x = native_open run now m u (prep now m u x).
Hypothesis prep_listeners :
  forall now m u x,
    listeners (prep now m u x)
    = listeners x ++ List.concat (repeat added per).
Hypothesis prep_readyState :
  forall now m u x, readyState (prep now m u x) = readyState x.
Hypothesis prep_reqData :
  forall now m u x, per <> 0%nat -> reqData (prep now m u x) <> None.

Lemma calls_emitted (rs : list XhrCall) :
  forall (j : nat) (x : Xhr R L),
    readyState x <> 1%Z ->
    listeners x = List.concat (repeat added (per * j)) ->
    each_request
      (fun i r result =>
         (exists x',
             xhr_status x' = xc_status r /\
             (per <> 0%nat -> reqData x' <> None) /\
             snd result
             = List.concat (repeat (emit (xc_tEnd r) x') (per * i))) /\
         requestHeaders (fst result) = List.concat (repeat hdrs (per * i)))
      (S j) rs (xhr_calls run open x rs).
Proof.
  induction rs as [|r rs IH]; intros j x Hr Hl; [exact I|].
  cbn [xhr_calls each_request]. cbv zeta.
  unfold xhr_call at 1 2 3. rewrite open_prep.
  set (x0 := prep (xc_tOpen r) (xc_method r) (xc_url r) x).
  assert (H1 : readyState x0 <> 1%Z)
    by (unfold x0; now rewrite prep_readyState).
  assert (H2 : listeners x0 = List.concat (repeat added (per * S j))).
  { unfold x0. rewrite prep_listeners, Hl, concat_repeat_add.
    now rewrite Nat.mul_succ_r. }
  destruct (native_request (per * S j) (xc_tOpen r) (xc_method r) (xc_url r)
              (xc_tEnd r) (xc_status r) x0 H1 H2)
    as (N1 & (x' & N2 & N3 & N4) & N5 & N6 & N7).
  destruct (native_open run (xc_tOpen r) (xc_method r) (xc_url r) x0)
    as [x1 log1].
  simpl in N1, N4, N5, N6, N7. subst log1.
  destruct (complete run (xc_tEnd r) (xc_status r) x1) as [x2 log2].
  simpl in N4, N5, N6, N7. simpl.
  split.
  - split; [|exact N7].
    exists x'. split; [exact N2|]. split; [|exact N4].
    intros Hper. apply N3. unfold x0. now apply prep_reqData.
  - apply IH; [rewrite N5; discriminate|exact N6].
Qed.

End Reuse.

(** The current agent, evaluated [n] times: the i-th request on an
    object sends [n * i] records and sets each header [n * i] times. *)
Lemma Rum_requests_records (c : Ctx) (n : nat) (rs : list XhrCall) :
  each_request
    (fun i r result =>
       records_by_status (n * i) (xc_status r) (snd result) /\
       requestHeaders (fst result) = shim_headers c (n * i))
    1 rs (Rum.xhr_requests c n rs).
Proof.
  unfold Rum.xhr_requests.
  refine (each_request_impl _ _ _ rs 1%nat _
            (calls_emitted _ _ (Rum.run_listener c)
               [(ReadyStateChange, Rum.OnReadyStateChange);
                (LoadEnd, Rum.OnLoadEnd)]
               [("X-RUM-Session-Id", JStr (sessionId c));
                ("X-RUM-Endpoint-Id", endpointId c)]
               (Rum.on_loadend c)
               (ready_listeners_opened c) (ready_listeners_idle c)
               (loadend_listeners c)
               (Rum.open_after c n)
               (fun _ m u x => Nat.iter n (prepare m u) x) n
               _ _ _ _ rs 0%nat new_xhr _ _)).
  - intros i r result ((x' & Hs & Hd & Hlog) & Hh). split; [|exact Hh].
    rewrite Hlog. destruct n as [|n'].
    + apply records_by_status_none.
    + apply records_by_status_repeat. rewrite <- Hs.
      apply Rum_on_loadend_classified. apply Hd. discriminate.
  - intros now m u x. apply open_after_prepare.
  - intros now m u x. apply prepared_fields.
  - intros now m u x. apply prepared_fields.
  - intros now m u x. apply prepared_fields.
  - simpl. discriminate.
  - rewrite Nat.mul_0_r. reflexivity.
Qed.

(** **** The first rum-sass.js script *)

Lemma Sass_ready_opened (c : Ctx) (now : Q) (n : nat) :
  forall x : RumSass.SassXhr,
    readyState x = 1%Z ->
    let result :=
      run_all (RumSass.run_listener c) (sass_listeners n)
        ReadyStateChange now x in
    snd result = [] /\
    readyState (fst result) = 1%Z /\
    listeners (fst result) = listeners x /\
    xhr_status (fst result) = xhr_status x /\
    (reqData x <> None -> reqData (fst result) <> None) /\
    requestHeaders (fst result) = requestHeaders x ++ shim_headers c n.
Proof.
  induction n as [|n IH]; intros x Hx.
  - simpl. rewrite app_nil_r. repeat split; auto.
  - unfold sass_listeners, shim_headers. simpl.
    fold (sass_listeners n). fold (shim_headers c n).
    set (x1 := RumSass.on_readystatechange c x).
    assert (H1 : readyState x1 = 1%Z /\ listeners x1 = listeners x /\
                 xhr_status x1 = xhr_status x /\
                 (reqData x <> None -> reqData x1 <> None) /\
                 requestHeaders x1
                 = requestHeaders x ++ [("X-RUM-Session-Id", JStr (sessionId c));
                                        ("X-RUM-Endpoint-Id", endpointId c)]).
    { unfold x1, RumSass.on_readystatechange, setRequestHeader.
      destruct x as [rd ls rs stt hs]. simpl in Hx. subst rs. simpl.
      rewrite <- ?app_assoc. simpl. repeat split; auto. }
    destruct H1 as (Hr & Hl & Hs & Hd & Hh).
    destruct (IH x1 Hr) as (I1 & I2 & I3 & I4 & I5 & I6).
    destruct (run_all (RumSass.run_listener c) (sass_listeners n)
                ReadyStateChange now x1) as [x2 log2].
    simpl in *. subst log2.
    repeat split; try congruence; auto.
    rewrite I6, Hh, <- app_assoc. reflexivity.
Qed.

Lemma Sass_ready_idle (c : Ctx) (now : Q) (n : nat) (x : RumSass.SassXhr) :
  readyState x <> 1%Z ->
  run_all (RumSass.run_listener c) (sass_listeners n) ReadyStateChange now x
  = (x, []).
Proof.
  intros Hx. induction n as [|n IH]; [reflexivity|].
  unfold sass_listeners. simpl. fold (sass_listeners n).
  unfold RumSass.on_readystatechange.
  apply Z.eqb_neq in Hx. rewrite Hx. rewrite IH. reflexivity.
Qed.

Lemma Sass_loadend (c : Ctx) (now : Q) (n : nat) (x : RumSass.SassXhr) :
  run_all (RumSass.run_listener c) (sass_listeners n) LoadEnd now x
  = (x, List.concat (repeat (RumSass.on_loadend c now x) n)).
Proof.
  induction n as [|n IH]; [reflexivity|].
  unfold sass_listeners. simpl. fold (sass_listeners n).
  rewrite IH. reflexivity.
Qed.

Lemma Sass_requests_records (c : Ctx) (rs : list XhrCall) :
  each_request
    (fun i r result =>
       records_by_status i (xc_status r) (snd result) /\
       requestHeaders (fst result) = shim_headers c i)
    1 rs (RumSass.xhr_requests c rs).
Proof.
  unfold RumSass.xhr_requests.
  refine (each_request_impl _ _ _ rs 1%nat _
            (calls_emitted _ _ (RumSass.run_listener c)
               [(ReadyStateChange, RumSass.OnReadyStateChange);
                (LoadEnd, RumSass.OnLoadEnd)]
               [("X-RUM-Session-Id", JStr (sessionId c));
                ("X-RUM-Endpoint-Id", endpointId c)]
               (RumSass.on_loadend c)
               (Sass_ready_opened c) (Sass_ready_idle c) (Sass_loadend c)
               (RumSass.patch_open c (native_open (RumSass.run_listener c)))
               (fun now m u x =>
                  addEventListener
                    (addEventListener
                       (set_reqData x
                          (RumSass.mkReqData (RumSass.method_arg m) u now))
                       ReadyStateChange RumSass.OnReadyStateChange)
                    LoadEnd RumSass.OnLoadEnd) 1%nat
               _ _ _ _ rs 0%nat new_xhr _ _)).
  - intros i r result ((x' & Hs & Hd & Hlog) & Hh).
    rewrite Nat.mul_1_l in Hlog, Hh. split; [|exact Hh].
    rewrite Hlog. apply records_by_status_repeat. rewrite <- Hs.
    apply Sass_on_loadend_classified. apply Hd. discriminate.
  - reflexivity.
  - intros now m u x. simpl. now rewrite <- app_assoc.
  - reflexivity.
  - intros now m u x _. simpl. discriminate.
  - simpl. discriminate.
  - reflexivity.
Qed.

(** **** The second rum-sass.js script *)

Lemma Legacy_ready (c : Ctx) (href : string) (now : Q) (n : nat)
      (x : RumLegacy.LegacyXhr) :
  run_all (RumLegacy.run_listener c href) (legacy_listeners n)
    ReadyStateChange now x = (x, []).
Proof.
  induction n as [|n IH]; [reflexivity|].
  unfold legacy_listeners. simpl. exact IH.
Qed.

Lemma Legacy_loadend (c : Ctx) (href : string) (now : Q) (n : nat)
      (x : RumLegacy.LegacyXhr) :
  run_all (RumLegacy.run_listener c href) (legacy_listeners n) LoadEnd now x
  = (x, List.concat (repeat (RumLegacy.on_loadend c href now x) n)).
Proof.
  induction n as [|n IH]; [reflexivity|].
  unfold legacy_listeners. simpl. fold (legacy_listeners n).
  rewrite IH. reflexivity.
Qed.

Lemma records_unclassified_repeat (l : list Delivery) (m : nat) :
  List.length l = 1%nat -> metric_records l = 1%nat ->
  error_records l = 0%nat ->
  records_unclassified m (List.concat (repeat l m)).
Proof.
  intros Hl Hm He.
  unfold records_unclassified, error_records, metric_records in *.
  rewrite length_concat_repeat, !count_trigger_repeat, Hl, He, Hm.
  repeat split; lia.
Qed.

Lemma Legacy_requests_records (c : Ctx) (href : string) (rs : list XhrCall) :
  each_request
    (fun i r result =>
       records_unclassified i (snd result) /\
       requestHeaders (fst result) = [])
    1 rs (RumLegacy.xhr_requests c href rs).
Proof.
  unfold RumLegacy.xhr_requests.
  refine (each_request_impl _ _ _ rs 1%nat _
            (calls_emitted _ _ (RumLegacy.run_listener c href)
               [(LoadEnd, RumLegacy.OnLoadEnd)] []
               (RumLegacy.on_loadend c href)
               _ _ (Legacy_loadend c href)
               (RumLegacy.patch_open
                  (native_open (RumLegacy.run_listener c href)))
               (fun now m u x =>
                  addEventListener
                    (set_reqData x
                       (RumLegacy.mkReqData (RumSass.method_arg m) u now))
                    LoadEnd RumLegacy.OnLoadEnd) 1%nat
               _ _ _ _ rs 0%nat new_xhr _ _)).
  - intros i r result ((x' & Hs & Hd & Hlog) & Hh).
    rewrite Nat.mul_1_l in Hlog, Hh. rewrite concat_repeat_nil in Hh.
    split; [|exact Hh].
    rewrite Hlog.
    destruct (Legacy_on_loadend_unclassified c href (xc_tEnd r) x')
      as (Hl & Hm & He & _); [apply Hd; discriminate|].
    now apply records_unclassified_repeat.
  - intros now k x Hx. cbv zeta.
    change (List.concat (repeat [(LoadEnd, RumLegacy.OnLoadEnd)] k))
      with (legacy_listeners k).
    rewrite Legacy_ready, concat_repeat_nil, app_nil_r. simpl.
    repeat split; auto.
  - intros now k x _. apply Legacy_ready.
  - reflexivity.
  - intros now m u x. simpl. reflexivity.
  - reflexivity.
  - intros now m u x _. simpl. discriminate.
  - simpl. discriminate.
  - reflexivity.
Qed.

(** The current agent evaluated once. *)
Lemma Rum_requests_classified (c : Ctx) (rs : list XhrCall) :
  each_request
    (fun i r result => records_by_status i (xc_status r) (snd result))
    1 rs (Rum.xhr_requests c 1 rs).
Proof.
  refine (each_request_impl _ _ _ rs 1%nat _ (Rum_requests_records c 1 rs)).
  intros i r result [H _]. now rewrite Nat.mul_1_l in H.
Qed.


End ReuseFacts.

Module ClassificationFacts.
Import Js Browser Config Spec ObjFacts DeliveryFacts RoutingFacts RecordFacts
       ReuseFacts.

(** C3 (as amended).  In the current agent and in the first rum-sass.js
    script a fetch call that completes with a response emits exactly one
    network record, and so does the first request made on an
    XMLHttpRequest object: an error record (api_call_error) when the
    status is 400 or more and a metrics record (api_call) otherwise.  The
    XHR wrappers register their listeners at every call of open and never
    remove them, so the i-th of the requests made one after the other on
    one object emits i records, error records all of them when the status
    of that request is 400 or more and metrics records all of them
    otherwise.  The XHR wrapper of the second rum-sass.js script does not
    look at the status: the records it emits, one for the first request on
    an object and i for the i-th, are metrics records for every status.
    The records counted are those the handlers of the call itself send; an
    envelope that is delivered with fetch is a call of the instrumented
    fetch in its turn, measured as a call of its own. *)
Theorem classification_by_status (c : Ctx) :
  (forall net t0 t1 input init r,
      net input (inject_headers c init) = Resolved r ->
      classified_by_status (status r)
        (fst (Rum.patch_fetch c (native_fetch net) t0 t1 input init))) /\
  (forall tOpen m u tEnd st,
      classified_by_status st
        (snd (Rum.xhr_request c (Rum.patch_open c (Rum.xhr_native_open c))
                tOpen m u tEnd st))) /\
  (forall net t0 t1 input init r,
      net input (inject_headers c init) = Resolved r ->
      classified_by_status (status r)
        (fst (RumSass.patch_fetch c (native_fetch net) t0 t1 input init))) /\
  (forall tOpen m u tEnd st,
      classified_by_status st (snd (RumSass.xhr_request c tOpen m u tEnd st))) /\
  (forall href tOpen m u tEnd st,
      let log := snd (RumLegacy.xhr_request c href tOpen m u tEnd st) in
      List.length log = 1%nat /\ metric_records log = 1%nat /\
      error_records log = 0%nat /\ Forall (metrics_legacy_path c) log) /\
  (forall rs,
      each_request
        (fun i r result => records_by_status i (xc_status r) (snd result))
        1 rs (Rum.xhr_requests c 1 rs)) /\
  (forall rs,
      each_request
        (fun i r result => records_by_status i (xc_status r) (snd result))
        1 rs (RumSass.xhr_requests c rs)) /\
  (forall href rs,
      each_request
        (fun i r result => records_unclassified i (snd result))
        1 rs (RumLegacy.xhr_requests c href rs)) /\
  (forall href tOpen m u tEnd st,
      Rum.xhr_requests c 1 [mkXhrCall tOpen m u tEnd st]
      = [Rum.xhr_request c (Rum.patch_open c (Rum.xhr_native_open c))
           tOpen m u tEnd st] /\
      RumSass.xhr_requests c [mkXhrCall tOpen m u tEnd st]
      = [RumSass.xhr_request c tOpen m u tEnd st] /\
      RumLegacy.xhr_requests c href [mkXhrCall tOpen m u tEnd st]
      = [RumLegacy.xhr_request c href tOpen m u tEnd st]).
Proof.
  repeat match goal with |- _ /\ _ => split end.
  - intros net t0 t1 input init r H.
    unfold Rum.patch_fetch, native_fetch, classified_by_status.
    rewrite H. simpl.
    destruct (Z.leb 400 (status r)); classify c.
  - intros tOpen m u tEnd st.
    destruct (Rum_xhr_log c tOpen m u tEnd st) as (x & Hrd & <- & ->).
    now apply Rum_on_loadend_classified.
  - intros net t0 t1 input init r H.
    unfold RumSass.patch_fetch, native_fetch, classified_by_status.
    rewrite H. simpl.
    destruct (Z.leb 400 (status r)); classify c.
  - intros tOpen m u tEnd st.
    destruct (Sass_xhr_log c tOpen m u tEnd st) as (x & Hrd & <- & ->).
    now apply Sass_on_loadend_classified.
  - intros href tOpen m u tEnd st.
    destruct (Legacy_xhr_log c href tOpen m u tEnd st) as (x & Hrd & _ & ->).
    now apply Legacy_on_loadend_unclassified.
  - intros rs. apply Rum_requests_classified.
  - intros rs.
    refine (each_request_impl _ _ _ rs 1%nat _ (Sass_requests_records c rs)).
    now intros i r result [H _].
  - intros href rs.
    refine (each_request_impl _ _ _ rs 1%nat _
              (Legacy_requests_records c href rs)).
    now intros i r result [H _].
  - intros href tOpen m u tEnd st. repeat split.
Qed.

Lemma classification_by_status_witness :
  classified_by_status 500
    (fst (Rum.patch_fetch example_ctx
            (native_fetch (fun _ _ => Resolved (mkResponse 500)))
            0 25 (InputString "/api/orders") None)).
Proof.
  exact (proj1 (classification_by_status example_ctx)
           (fun _ _ => Resolved (mkResponse 500)) 0 25
           (InputString "/api/orders") None (mkResponse 500) eq_refl).
Defined.

(** An XHR that completes with status 500 under the second rum-sass.js
    script: one metrics record, no error record. *)
Lemma legacy_xhr_500_not_classified :
  let log := snd (RumLegacy.xhr_request example_ctx "http://page.test/"
                    0 (Some "GET") "/api/orders" 25 500) in
  error_records log = 0%nat /\ metric_records log = 1%nat /\
  ~ classified_by_status 500 log.
Proof.
  simpl. repeat split.
  intros (_ & H & _). discriminate H.
Qed.

(** Two requests on one object under the current agent, the second one
    failing: one metrics record, then two error records. *)
Example second_request_on_one_object :
  map (fun result => (error_records (snd result), metric_records (snd result)))
      (Rum.xhr_requests example_ctx 1
         [mkXhrCall 0 (Some "GET") "/api/orders" 25 200;
          mkXhrCall 40 (Some "GET") "/api/orders" 65 500])
  = [(0, 1); (2, 0)]%nat.
Proof. reflexivity. Qed.

End ClassificationFacts.

Module ShimFacts.
Import Js Browser Config Spec ObjFacts DeliveryFacts SessionEndFacts ReuseFacts.

(** **** fetch *)








End ShimFacts.

Module ObserverFacts.
Import Js Browser Config Spec ObjFacts.
Import Observers.

(** A run of callbacks is one pass over the entries in order. *)
Lemma fold_left_concat {A B : Type} (f : A -> B -> A) (ls : list (list B)) :
  forall a,
    fold_left (fun acc l => fold_left f l acc) ls a
    = fold_left f (List.concat ls) a.
Proof.
  induction ls as [|l ls IH]; intros a; simpl; auto.
  now rewrite fold_left_app, IH.
Qed.

(** **** Paint *)

Lemma paint_entry_fp (st : PaintState) (e : PaintEntry) :
  fpValue (paint_entry st e)
  = if String.eqb (pe_name e) "first-paint" then Some (pe_startTime e)
    else fpValue st.
Proof.
  unfold paint_entry.
  destruct (String.eqb (pe_name e) "first-paint");
    destruct (String.eqb (pe_name e) "first-contentful-paint"); reflexivity.
Qed.

Lemma paint_entry_fcp (st : PaintState) (e : PaintEntry) :
  fcpValue (paint_entry st e)
  = if String.eqb (pe_name e) "first-contentful-paint"
    then Some (pe_startTime e)
    else fcpValue st.
Proof.
  unfold paint_entry.
  destruct (String.eqb (pe_name e) "first-paint");
    destruct (String.eqb (pe_name e) "first-contentful-paint"); reflexivity.
Qed.

Lemma paintObserver_fp (es : list PaintEntry) :
  forall st,
    fpValue (paintObserver st es)
    = match last_named "first-paint" es with
      | Some q => Some q
      | None => fpValue st
      end.
Proof.
  unfold paintObserver.
  induction es as [|e es IH]; intros st; simpl; auto.
  rewrite IH, paint_entry_fp.
  destruct (last_named "first-paint" es); auto.
  destruct (String.eqb (pe_name e) "first-paint"); auto.
Qed.

Lemma paintObserver_fcp (es : list PaintEntry) :
  forall st,
    fcpValue (paintObserver st es)
    = match last_named "first-contentful-paint" es with
      | Some q => Some q
      | None => fcpValue st
      end.
Proof.
  unfold paintObserver.
  induction es as [|e es IH]; intros st; simpl; auto.
  rewrite IH, paint_entry_fcp.
  destruct (last_named "first-contentful-paint" es); auto.
  destruct (String.eqb (pe_name e) "first-contentful-paint"); auto.
Qed.

Lemma last_named_absent (name : string) (es : list PaintEntry) :
  named_count name es = 0%nat -> last_named name es = None.
Proof.
  unfold named_count.
  induction es as [|e es IH]; simpl; auto.
  destruct (String.eqb (pe_name e) name); simpl; [discriminate|].
  intros H. now rewrite IH.
Qed.

Lemma last_named_unique (name : string) (es : list PaintEntry) :
  (named_count name es <= 1)%nat -> last_named name es = first_named name es.
Proof.
  unfold named_count.
  induction es as [|e es IH]; simpl; auto.
  destruct (String.eqb (pe_name e) name) eqn:E; simpl; intros H.
  - rewrite last_named_absent; auto. unfold named_count. lia.
  - rewrite IH by assumption. now destruct (first_named name es).
Qed.

(** C7 (as amended).  After any run of paint callbacks each of the two
    values holds the start time of the most recent entry of its name (null
    while there was none): a later entry of the same name overwrites the
    value, an entry of another name leaves it alone.  When the entries
    contain at most one entry of a name, as a browser reports them, the
    value is the start time of that entry, set once. *)
Theorem paint_holds_latest (batches : list (list PaintEntry)) :
  fpValue (paint_after batches)
  = last_named "first-paint" (List.concat batches) /\
  fcpValue (paint_after batches)
  = last_named "first-contentful-paint" (List.concat batches) /\
  (forall st batch,
      named_count "first-paint" batch = 0%nat ->
      fpValue (paintObserver st batch) = fpValue st) /\
  (forall st batch,
      named_count "first-contentful-paint" batch = 0%nat ->
      fcpValue (paintObserver st batch) = fcpValue st) /\
  ((named_count "first-paint" (List.concat batches) <= 1)%nat ->
   fpValue (paint_after batches)
   = first_named "first-paint" (List.concat batches)) /\
  ((named_count "first-contentful-paint" (List.concat batches) <= 1)%nat ->
   fcpValue (paint_after batches)
   = first_named "first-contentful-paint" (List.concat batches)).
Proof.
  assert (Hfp : fpValue (paint_after batches)
                = last_named "first-paint" (List.concat batches)).
  { unfold paint_after, paintObserver. rewrite fold_left_concat.
    fold (paintObserver paint_initial (List.concat batches)).
    rewrite paintObserver_fp. simpl.
    now destruct (last_named "first-paint" (List.concat batches)). }
  assert (Hfcp : fcpValue (paint_after batches)
                 = last_named "first-contentful-paint" (List.concat batches)).
  { unfold paint_after, paintObserver. rewrite fold_left_concat.
    fold (paintObserver paint_initial (List.concat batches)).
    rewrite paintObserver_fcp. simpl.
    now destruct (last_named "first-contentful-paint" (List.concat batches)). }
  repeat match goal with |- _ /\ _ => split end; auto.
  - intros st batch H. rewrite paintObserver_fp.
    now rewrite last_named_absent.
  - intros st batch H. rewrite paintObserver_fcp.
    now rewrite last_named_absent.
  - intros H. rewrite Hfp. now apply last_named_unique.
  - intros H. rewrite Hfcp. now apply last_named_unique.
Qed.

Lemma paint_holds_latest_witness :
  fpValue (paint_after [[mkPaint "first-paint" 120];
                        [mkPaint "first-contentful-paint" 180]])
  = first_named "first-paint"
      (List.concat [[mkPaint "first-paint" 120];
                    [mkPaint "first-contentful-paint" 180]]).
Proof.
  apply (proj1 (proj2 (proj2 (proj2 (proj2
           (paint_holds_latest [[mkPaint "first-paint" 120];
                                [mkPaint "first-contentful-paint" 180]])))))).
  vm_compute. apply le_n.
Defined.

(** Two first-paint entries in two callbacks: the value follows the second
    one, it is neither the first one nor kept once set. *)
Lemma paint_value_is_revised :
  let first := [mkPaint "first-paint" 120] in
  let second := [mkPaint "first-paint" 480] in
  fpValue (paint_after [first; second]) = Some 480%Q /\
  ~ paint_set_to_first [first; second] /\
  ~ paint_not_revised (paint_after [first]) second.
Proof.
  cbv zeta. split; [reflexivity|]. split.
  - intros [H _]. simpl in H. discriminate H.
  - intros [H _]. simpl in H.
    assert (Some 480%Q = Some 120%Q) by (apply H; discriminate).
    discriminate.
Qed.

(** **** Cumulative layout shift *)






(** **** Resource timing *)

Lemma not_beacon_iff (r : ResourceEntry) :
  not_beacon r = true <-> re_initiatorType r <> "beacon".
Proof.
  unfold not_beacon. rewrite negb_true_iff.
  split.
  - intros H E. apply String.eqb_eq in E. congruence.
  - intros H. apply String.eqb_neq. exact H.
Qed.

Lemma collect_in (rs : list ResourceEntry) (o : Obj) :
  In o (collectResourceMetrics rs) <->
  exists r, In r rs /\ re_initiatorType r <> "beacon" /\ o = resource_record r.
Proof.
  unfold collectResourceMetrics. rewrite in_map_iff. split.
  - intros (r & <- & Hr). apply filter_In in Hr. destruct Hr as [Hin Hb].
    exists r. repeat split; auto. now apply not_beacon_iff.
  - intros (r & Hin & Hb & ->). exists r. split; auto.
    apply filter_In. split; auto. now apply not_beacon_iff.
Qed.

(** C8 (as amended).  The resource metrics are exactly the records of the
    entries whose initiator type is not beacon, in their order and as often
    as they occur (the collection of an empty list is empty, an entry at
    the head is dropped if it is a beacon and otherwise its record is at
    the head of the result, and the collection of two lists one after the
    other is the two collections one after the other), each with the six
    fields name, type, duration, transferSize, startTime and
    responseEnd.  An envelope delivered through sendBeacon is therefore
    left out, and an envelope delivered through a standard request (every
    error envelope, and every metrics envelope on a browser without
    sendBeacon) is listed like any other resource. *)
Theorem resource_metrics_exclude_beacons :
  (forall rs o,
      In o (collectResourceMetrics rs) <->
      exists r, In r rs /\ re_initiatorType r <> "beacon" /\
                o = resource_record r) /\
  (forall rs,
      List.length (collectResourceMetrics rs)
      = List.length (filter not_beacon rs)) /\
  collectResourceMetrics [] = [] /\
  (forall r rs,
      collectResourceMetrics (r :: rs)
      = if String.eqb (re_initiatorType r) "beacon"
        then collectResourceMetrics rs
        else resource_record r :: collectResourceMetrics rs) /\
  (forall rs1 rs2,
      collectResourceMetrics (rs1 ++ rs2)
      = collectResourceMetrics rs1 ++ collectResourceMetrics rs2) /\
  (forall r,
      map fst (resource_record r)
      = ["name"; "type"; "duration"; "transferSize"; "startTime";
         "responseEnd"]) /\
  (forall r,
      obj_get (resource_record r) "name" = JStr (re_name r) /\
      obj_get (resource_record r) "type" = JStr (re_initiatorType r) /\
      obj_get (resource_record r) "duration" = JNum (re_duration r) /\
      obj_get (resource_record r) "transferSize"
      = match re_transferSize r with
        | Some q => if Qeq_bool q 0 then JNull else JNum q
        | None => JNull
        end /\
      obj_get (resource_record r) "startTime" = JNum (re_startTime r) /\
      obj_get (resource_record r) "responseEnd" = JNum (re_responseEnd r)) /\
  (forall d t dur ts,
      collectResourceMetrics [resource_entry_of d t dur ts]
      = match via d with
        | SendBeacon => []
        | FetchRequest _ => [resource_record (resource_entry_of d t dur ts)]
        end) /\
  (forall c data t dur ts,
      collectResourceMetrics [resource_entry_of (Rum.sendError c data) t dur ts]
      = [resource_record (resource_entry_of (Rum.sendError c data) t dur ts)]) /\
  (forall c data t dur ts,
      collectResourceMetrics
        [resource_entry_of (Rum.sendMetrics c data) t dur ts]
      = if sendBeaconAvailable c then []
        else [resource_record
                (resource_entry_of (Rum.sendMetrics c data) t dur ts)]).
Proof.
  repeat match goal with |- _ /\ _ => split end.
  - apply collect_in.
  - intros rs. unfold collectResourceMetrics. apply length_map.
  - reflexivity.
  - intros r rs. unfold collectResourceMetrics, not_beacon. simpl.
    now destruct (String.eqb (re_initiatorType r) "beacon").
  - intros rs1 rs2. unfold collectResourceMetrics.
    now rewrite filter_app, map_app.
  - reflexivity.
  - intros r. repeat split.
    unfold resource_record. simpl.
    destruct (re_transferSize r) as [q|]; [|reflexivity].
    unfold js_or, truthy. now destruct (Qeq_bool q 0).
  - intros d t dur ts. unfold collectResourceMetrics, resource_entry_of.
    destruct (via d); reflexivity.
  - reflexivity.
  - intros c data t dur ts. unfold Rum.sendMetrics, Rum.post.
    destruct (sendBeaconAvailable c); reflexivity.
Qed.

(** The request that delivered an error envelope is listed among the
    page's resources. *)
Lemma error_delivery_is_listed :
  let d := Rum.sendError example_ctx [("trigger", JStr "js_error")] in
  let entry := resource_entry_of d 2000 35 (Some 0%Q) in
  In (resource_record entry) (collectResourceMetrics [entry]) /\
  ~ own_deliveries_excluded [d] [entry].
Proof.
  cbv zeta. split.
  - simpl. now left.
  - intros H.
    apply (H (Rum.sendError example_ctx [("trigger", JStr "js_error")])
             2000%Q 35%Q (Some 0%Q)); simpl; now left.
Qed.

(** C10.  An entry that is not a beacon and whose transferSize is zero is
    reported with transferSize null, and its record is the record of the
    same entry on a browser that does not expose transferSize at all. *)
Theorem zero_transferSize_is_null (rs : list ResourceEntry) (r : ResourceEntry)
        (q : Q) :
  In r rs ->
  re_initiatorType r <> "beacon" ->
  re_transferSize r = Some q ->
  (q == 0)%Q ->
  In (resource_record r) (collectResourceMetrics rs) /\
  obj_get (resource_record r) "transferSize" = JNull /\
  resource_record r = resource_record (without_transferSize r).
Proof.
  intros Hin Hb Hts Hq.
  assert (Hz : Qeq_bool q 0 = true) by now apply Qeq_bool_iff.
  split; [|split].
  - apply collect_in. now exists r.
  - unfold resource_record. rewrite Hts. simpl.
    unfold js_or, truthy. now rewrite Hz.
  - unfold resource_record, without_transferSize. rewrite Hts. simpl.
    unfold js_or, truthy. now rewrite Hz.
Qed.

Lemma zero_transferSize_is_null_witness :
  let r := mkResource "http://cdn.test/app.js" "script" 12 (Some 0%Q) 40 52 in
  In (resource_record r) (collectResourceMetrics [r]) /\
  obj_get (resource_record r) "transferSize" = JNull /\
  resource_record r = resource_record (without_transferSize r).
Proof.
  apply (zero_transferSize_is_null
           [mkResource "http://cdn.test/app.js" "script" 12 (Some 0%Q) 40 52]
           (mkResource "http://cdn.test/app.js" "script" 12 (Some 0%Q) 40 52)
           0%Q).
  - simpl. now left.
  - simpl. discriminate.
  - reflexivity.
  - reflexivity.
Defined.

(** A transfer of some bytes keeps its size. *)
Example nonzero_transferSize_kept :
  obj_get (resource_record
             (mkResource "http://cdn.test/app.js" "script" 12 (Some 5120%Q) 40 52))
          "transferSize" = JNum 5120.
Proof. reflexivity. Qed.

End ObserverFacts.

(* ================================================================== *)
(** ** Further properties *)
(* ================================================================== *)

Module StartupFacts.
Import Js Browser Config Spec SpecMore ObjFacts DeliveryFacts.
Import Startup.

Lemma attr_or_nonempty (attr : option string) (fallback : string) :
  fallback <> "" -> attr_or attr fallback <> "".
Proof.
  intros H. unfold attr_or. destruct attr as [s|]; auto.
  destruct (String.eqb s "") eqn:E; auto.
  apply String.eqb_neq in E. exact E.
Qed.

Lemma apiBaseUrl_nonempty (script : option ScriptTag) :
  apiBaseUrl_of script <> "".
Proof.
  unfold apiBaseUrl_of. destruct script as [s|]; [|discriminate].
  apply attr_or_nonempty. discriminate.
Qed.

(** The configuration read from the loading tag.  Neither base URL is ever
    empty; the errors URL is the metrics URL whenever the tag gives no
    (or an empty) data-errors-url; without a tag the endpoint id is null
    and both URLs are the local default. *)
Theorem config_fallbacks (current queried : option ScriptTag) :
  let script := currentScript current queried in
  apiBaseUrl_of script <> "" /\
  errorsBaseUrl_of script <> "" /\
  (forall s, script = Some s ->
             data_errors_url s = None \/ data_errors_url s = Some "" ->
             errorsBaseUrl_of script = apiBaseUrl_of script) /\
  (forall s, script = Some s ->
             data_api_url s = None \/ data_api_url s = Some "" ->
             apiBaseUrl_of script = "http://localhost:8000") /\
  (script = None ->
   endpointId_of script = JNull /\
   apiBaseUrl_of script = "http://localhost:8000" /\
   errorsBaseUrl_of script = "http://localhost:8000") /\
  (current <> None -> script = current).
Proof.
  cbv zeta. set (script := currentScript current queried).
  repeat match goal with |- _ /\ _ => split end.
  - apply apiBaseUrl_nonempty.
  - unfold errorsBaseUrl_of. destruct script as [s|] eqn:E.
    + apply attr_or_nonempty. rewrite <- E. apply apiBaseUrl_nonempty.
    + discriminate.
  - intros s -> [H|H]; unfold errorsBaseUrl_of; rewrite H; reflexivity.
  - intros s -> [H|H]; unfold apiBaseUrl_of; rewrite H; reflexivity.
  - intros ->. repeat split.
  - unfold script, currentScript. destruct current; congruence.
Qed.

Lemma config_fallbacks_witness :
  let script := Some (mkScriptTag (Some "ep-7") (Some "https://rum.test") None) in
  errorsBaseUrl_of (currentScript script None)
  = apiBaseUrl_of (currentScript script None).
Proof.
  apply (proj1 (proj2 (proj2
           (config_fallbacks
              (Some (mkScriptTag (Some "ep-7") (Some "https://rum.test") None))
              None)))
           (mkScriptTag (Some "ep-7") (Some "https://rum.test") None)).
  - reflexivity.
  - left. reflexivity.
Defined.

Lemma sessionId_nonempty (st : TabStorage) (suffix : string) :
  sessionId_of st suffix <> "".
Proof.
  unfold sessionId_of. destruct (rum_session_id st) as [s|]; [|discriminate].
  destruct (String.eqb s "") eqn:E; [discriminate|].
  apply String.eqb_neq in E. exact E.
Qed.

Lemma sessionId_stored (s : string) (start : option Q) (suffix : string) :
  s <> "" -> sessionId_of (mkTabStorage (Some s) start) suffix = s.
Proof.
  intros Hs. unfold sessionId_of. simpl.
  apply String.eqb_neq in Hs. now rewrite Hs.
Qed.

(** The session identity of a tab.  The identifier is never empty and is
    written back to the storage; a later evaluation of the script in the
    same tab (a reload) finds it, takes it whatever it would have
    generated itself, leaves the storage as it is and sends no second
    session-start envelope. *)
Theorem session_identity_survives_reload (p p' : PageLoad) (st : TabStorage) :
  let first := evaluate p st in
  let second := evaluate p' (snd (fst first)) in
  sessionId (fst (fst first)) <> "" /\
  rum_session_id (snd (fst first)) = Some (sessionId (fst (fst first))) /\
  sessionId (fst (fst second)) = sessionId (fst (fst first)) /\
  snd (fst second) = snd (fst first) /\
  snd second = [].
Proof.
  cbv zeta. unfold evaluate, start_session.
  pose proof (sessionId_nonempty st (pl_suffix p)) as Hne.
  destruct (rum_session_start st) as [q|];
    cbn [fst snd rum_session_start rum_session_id sessionId];
    rewrite ?sessionId_stored by exact Hne;
    repeat split; auto.
Qed.

(** Whatever the listeners send on unload comes from the listener body. *)
Lemma run_events_Forall (c : Ctx) (ss : option Q) (P : Delivery -> Prop) :
  (forall evt o, Forall P (Rum.session_end_listener c ss evt o)) ->
  forall os r, Forall P (snd (Rum.run_events c ss r os)).
Proof.
  intros H os. induction os as [|o os IH]; intros r; simpl.
  - constructor.
  - unfold Rum.dispatch.
    destruct (existsb (Rum.UnloadEvent_eqb (Rum.occ_evt o)) r).
    + specialize (IH (Rum.unregister (Rum.occ_evt o) r)).
      destruct (Rum.run_events c ss (Rum.unregister (Rum.occ_evt o) r) os).
      simpl in *. apply Forall_app. split; auto.
    + specialize (IH r). destruct (Rum.run_events c ss r os). exact IH.
Qed.

Lemma session_of_sendMetrics (c : Ctx) (data : Obj) :
  session_of (Rum.sendMetrics c data)
  = match obj_get (obj_spread [] data) "session" with
    | JObj o => o
    | _ => []
    end.
Proof.
  unfold session_of, Rum.sendMetrics. rewrite IdentityFacts.post_body.
  rewrite IdentityFacts.spread_rumIds_other by discriminate. reflexivity.
Qed.

(** The start of a session.  In a tab that has no start marker the script
    stores the time and sends exactly one session-start envelope, on the
    metrics path; every session-end envelope sent afterwards reports that
    stored time as start_epoch_ms (null if the stored time is zero). *)
Theorem session_start_round_trip (p : PageLoad) (st : TabStorage)
        (os : list Rum.Occurrence) :
  rum_session_start st = None ->
  let c := fst (fst (evaluate p st)) in
  let st1 := snd (fst (evaluate p st)) in
  rum_session_start st1 = Some (pl_t_store p) /\
  (exists d,
      snd (evaluate p st) = [d] /\
      trigger_of d = JStr "session_start" /\
      metrics_path c d /\
      obj_get (session_of d) "start_epoch_ms" = JNum (pl_t_epoch p)) /\
  Forall (fun d => obj_get (session_of d) "start_epoch_ms"
                   = js_or (JNum (pl_t_store p)) JNull)
         (Rum.unload_sequence c (rum_session_start st1) os).
Proof.
  intros Hst. cbv zeta. unfold evaluate, start_session. simpl.
  rewrite Hst. simpl. split; [reflexivity|]. split.
  - eexists. split; [reflexivity|].
    split; [now rewrite Rum_sendMetrics_trigger|].
    split; [apply Rum_sendMetrics_path|].
    now rewrite session_of_sendMetrics.
  - unfold Rum.unload_sequence. apply run_events_Forall.
    intros evt o. unfold Rum.session_end_listener.
    destruct (orb _ _); constructor; [|constructor].
    now rewrite session_of_sendMetrics.
Qed.

Lemma session_start_round_trip_witness :
  let p := mkPageLoad None None "1730000000000-9f3a" true 1000
                      1730000000000 1730000000001 1730000000001 in
  Forall (fun d => obj_get (session_of d) "start_epoch_ms"
                   = js_or (JNum 1730000000000) JNull)
         (Rum.unload_sequence (fst (fst (evaluate p empty_storage)))
            (rum_session_start (snd (fst (evaluate p empty_storage))))
            pagehide_then_beforeunload).
Proof.
  apply (proj2 (proj2
           (session_start_round_trip
              (mkPageLoad None None "1730000000000-9f3a" true 1000
                          1730000000000 1730000000001 1730000000001)
              empty_storage pagehide_then_beforeunload eq_refl))).
Defined.

End StartupFacts.

Module VitalsFacts.
Import Js Browser Config Spec SpecMore ObjFacts.
Import Vitals.

(** **** Largest contentful paint *)

Lemma last_entry_snoc {A : Type} (l : list A) (a : A) :
  last_entry (l ++ [a]) = Some a.
Proof. unfold last_entry. now rewrite rev_unit. Qed.

Lemma last_entry_app {A : Type} (l1 l2 : list A) :
  last_entry (l1 ++ l2)
  = match last_entry l2 with
    | Some a => Some a
    | None => last_entry l1
    end.
Proof.
  unfold last_entry. rewrite rev_app_distr.
  destruct (rev l2); reflexivity.
Qed.

(** Indexing at [length - 1] reads the last element. *)
Lemma last_of_last_entry {A : Type} (l : list A) : last_of l = last_entry l.
Proof.
  induction l as [|a l _] using rev_ind; [reflexivity|].
  rewrite last_entry_snoc. unfold last_of.
  destruct (l ++ [a]) as [|b l'] eqn:E; [destruct l; discriminate|].
  rewrite <- E, length_app. simpl.
  replace (List.length l + 1 - 1)%nat with (List.length l) by lia.
  rewrite nth_error_app2 by lia. now rewrite Nat.sub_diag.
Qed.

Lemma lcp_from (batches : list (list LcpEntry)) :
  forall v,
    fold_left lcpObserver batches v
    = match last_entry (List.concat batches) with
      | Some e => Some (lcp_startTime e)
      | None => v
      end.
Proof.
  induction batches as [|b bs IH]; intros v; simpl; [reflexivity|].
  rewrite IH, last_entry_app. unfold lcpObserver.
  rewrite last_of_last_entry.
  destruct (last_entry (List.concat bs)); [reflexivity|].
  destruct (last_entry b); reflexivity.
Qed.

(** After any run of callbacks the LCP value is the start time of the very
    last entry delivered (null while none was); a callback that delivers
    no entry leaves the value as it is, and within a callback only the
    last entry counts. *)
Theorem lcp_is_last_entry :
  (forall batches,
      lcp_after batches
      = option_map lcp_startTime (last_entry (List.concat batches))) /\
  (forall v, lcpObserver v [] = v) /\
  (forall v entries e,
      lcpObserver v (entries ++ [e]) = Some (lcp_startTime e)).
Proof.
  split; [|split].
  - intros batches. unfold lcp_after. rewrite lcp_from.
    now destruct (last_entry (List.concat batches)).
  - reflexivity.
  - intros v entries e. unfold lcpObserver.
    now rewrite last_of_last_entry, last_entry_snoc.
Qed.

(** **** The observers that keep the latest matching entry *)

Section Latest.

Variables (A V : Type) (p : A -> bool) (f : A -> V).

Lemma keep_latest_fold (l : list A) :
  forall v,
    fold_left (keep_latest p f) l v
    = match last_satisfying p l with
      | Some e => Some (f e)
      | None => v
      end.
Proof.
  unfold last_satisfying.
  induction l as [|a l IH] using rev_ind; intros v; [reflexivity|].
  rewrite fold_left_app, rev_unit. simpl. unfold keep_latest at 1.
  destruct (p a); [reflexivity|]. apply IH.
Qed.

Lemma keep_latest_batches (batches : list (list A)) :
  fold_left (fun acc l => fold_left (keep_latest p f) l acc) batches None
  = option_map f (last_satisfying p (List.concat batches)).
Proof.
  rewrite ObserverFacts.fold_left_concat, keep_latest_fold.
  now destruct (last_satisfying p (List.concat batches)).
Qed.

Lemma keep_latest_none (l : list A) (v : option V) :
  (forall e, In e l -> p e = false) ->
  fold_left (keep_latest p f) l v = v.
Proof.
  revert v. induction l as [|a l IH]; intros v H; simpl; [reflexivity|].
  unfold keep_latest at 2. rewrite (H a) by now left.
  apply IH. intros e He. apply H. now right.
Qed.

End Latest.

(** After any run of callbacks the first-input delay is
    [processingStart - startTime], the rounded difference of the two
    doubles, of the latest entry whose type is first-input (null while
    there was none): a later first-input entry replaces the value, entries
    of any other type never touch it. *)
Theorem fid_is_latest_first_input :
  (forall batches,
      fid_after batches
      = option_map input_delay
          (last_satisfying is_first_input (List.concat batches))) /\
  (forall v entries,
      (forall e, In e entries -> fi_entryType e <> "first-input") ->
      fidObserver v entries = v).
Proof.
  split.
  - intros batches.
    apply (keep_latest_batches _ _ is_first_input input_delay).
  - intros v entries H.
    apply (keep_latest_none _ _ is_first_input input_delay).
    intros e He. apply String.eqb_neq. now apply H.
Qed.

Lemma fid_is_latest_first_input_witness :
  fidObserver (Some 4%float) [mkFirstInput "event" 30%float 10%float]
  = Some 4%float.
Proof.
  apply (proj2 fid_is_latest_first_input).
  intros e [<-|[]]. simpl. discriminate.
Defined.

(** After any run of callbacks the INP value is the duration of the latest
    entry that carries a truthy interactionId, however short that duration
    is; entries whose interactionId is 0, null or undefined never touch
    it. *)
Theorem inp_is_latest_interaction :
  (forall batches,
      inp_after batches
      = option_map ee_duration
          (last_satisfying is_interaction (List.concat batches))) /\
  (forall v entries,
      (forall e, In e entries ->
                 ee_interactionId e = JNum 0 \/ ee_interactionId e = JNull \/
                 ee_interactionId e = JUndefined) ->
      inpObserver v entries = v).
Proof.
  split.
  - intros batches.
    apply (keep_latest_batches _ _ is_interaction ee_duration).
  - intros v entries H.
    apply (keep_latest_none _ _ is_interaction ee_duration).
    intros e He. unfold is_interaction.
    destruct (H e He) as [-> | [-> | ->]]; reflexivity.
Qed.

Lemma inp_is_latest_interaction_witness :
  inpObserver (Some 48%Q) [mkEventEntry (JNum 0) 200; mkEventEntry JUndefined 90]
  = Some 48%Q.
Proof.
  apply (proj2 inp_is_latest_interaction).
  intros e [<-|[<-|[]]]; simpl; auto.
Defined.

(** An interaction of 5 ms is taken: the callback has no threshold of its
    own. *)
Example inp_short_interaction :
  inp_after [[mkEventEntry (JNum 7) 120]; [mkEventEntry (JNum 8) 5]] = Some 5%Q.
Proof. reflexivity. Qed.

(** **** Environment *)






(** **** The vitals snapshot *)



End VitalsFacts.

Module HookFacts.
Import Js Browser Config Spec SpecMore ObjFacts DeliveryFacts.

(** Reading a key of [{ ...target, ...source }]: the value [source] gives
    it last, else the value of [target]. *)
Lemma obj_get_spread (source : Obj) (k : string) :
  forall target,
    obj_get (obj_spread target source) k
    = match last_binding source k with
      | Some v => v
      | None => obj_get target k
      end.
Proof.
  unfold obj_spread, last_binding, last_satisfying.
  induction source as [|[k' v'] source IH] using rev_ind; intros target.
  - reflexivity.
  - rewrite fold_left_app, rev_unit. simpl.
    destruct (String.eqb k' k) eqn:E.
    + apply String.eqb_eq in E. subst k'. simpl. apply obj_get_set_same.
    + apply String.eqb_neq in E. rewrite obj_get_set_other by assumption.
      apply IH.
Qed.

Lemma Rum_sendMetrics_identity (c : Ctx) (data : Obj) :
  carries_identity c (Rum.sendMetrics c data).
Proof.
  unfold carries_identity, Rum.sendMetrics. rewrite IdentityFacts.post_body.
  split; [apply IdentityFacts.spread_rumIds_session
         |apply IdentityFacts.spread_rumIds_endpoint].
Qed.

Lemma business_of_sendMetrics (c : Ctx) (data : Obj) :
  business_of (Rum.sendMetrics c data)
  = match obj_get (obj_spread [] data) "business" with
    | JObj o => o
    | _ => []
    end.
Proof.
  unfold business_of, Rum.sendMetrics. rewrite IdentityFacts.post_body.
  rewrite IdentityFacts.spread_rumIds_other by discriminate. reflexivity.
Qed.

(** The business-metric hook sends exactly one envelope, with trigger
    business_metric and the stored identity, on the metrics path.  Its
    business object reads, for every key, the value the extra fields give
    it last, and the name or value argument only where the extra fields
    have no such key: extra fields called name or value replace the
    arguments, while nothing in them reaches the trigger or the identity. *)
Theorem business_metric_envelope (c : Ctx) (name value : JsVal) (extra : Obj) :
  exists d,
    Hooks.logBusinessMetric c name value extra = [d] /\
    trigger_of d = JStr "business_metric" /\
    carries_identity c d /\
    metrics_path c d /\
    forall k,
      obj_get (business_of d) k
      = match last_binding extra k with
        | Some v => v
        | None => obj_get [("name", name); ("value", value)] k
        end.
Proof.
  eexists. split; [reflexivity|].
  split; [now rewrite Rum_sendMetrics_trigger|].
  split; [apply Rum_sendMetrics_identity|].
  split; [apply Rum_sendMetrics_path|].
  intros k. rewrite business_of_sendMetrics. simpl.
  apply obj_get_spread.
Qed.

(** The call of the specification's scenario. *)
Example business_metric_checkout :
  map body (Hooks.logBusinessMetric example_ctx (JStr "checkout_latency")
              (JNum 1452) [("step", JStr "payment")])
  = [[("trigger", JStr "business_metric");
      ("business", JObj [("name", JStr "checkout_latency");
                         ("value", JNum 1452);
                         ("step", JStr "payment")]);
      ("session_id", JStr "sess-1");
      ("endpoint_id", JStr "ep-1")]].
Proof. reflexivity. Qed.

(** Extra fields that reuse the argument names win. *)
Example business_metric_extra_wins :
  obj_get (business_of
             (hd (mkDelivery SendBeacon "" [])
                 (Hooks.logBusinessMetric example_ctx (JStr "checkout_latency")
                    (JNum 1452) [("value", JStr "n/a")])))
          "value" = JStr "n/a".
Proof. reflexivity. Qed.

End HookFacts.

Module CaptureFacts.
Import Js Browser Config Spec SpecMore ObjFacts DeliveryFacts.





End CaptureFacts.

Module RequestFacts.
Import Js Browser Config Spec SpecMore ObjFacts DeliveryFacts HookFacts.

(** **** Headers of an instrumented fetch *)



(** **** Method and endpoint of a record *)










(** **** Timing of an XHR record *)

End RequestFacts.

Module LegacyFetchFacts.
Import Js Browser Config Spec SpecMore ObjFacts DeliveryFacts.

Lemma Legacy_sendMetrics_path (c : Ctx) (data : Obj) :
  metrics_legacy_path c (RumLegacy.sendMetrics c data).
Proof.
  unfold metrics_legacy_path, RumLegacy.sendMetrics.
  destruct (sendBeaconAvailable c); simpl; split; reflexivity.
Qed.

Lemma Legacy_sendMetrics_get (c : Ctx) (data : Obj) (k : string) :
  k <> "session_id" -> k <> "endpoint_id" ->
  obj_get (body (RumLegacy.sendMetrics c data)) k
  = obj_get (obj_spread [] data) k.
Proof.
  intros H1 H2. unfold RumLegacy.sendMetrics.
  destruct (sendBeaconAvailable c); simpl;
    rewrite !obj_get_set_other by congruence; reflexivity.
Qed.

(** The fetch wrapper of the second rum-sass.js script.  It hands the
    caller's arguments to the wrapped function as they came (it adds no
    header) and sends one envelope per settled call through the single
    metrics endpoint: api_call for every response, whatever its status,
    and api_call_error, with the message of the failure and a null status,
    for a rejection whose value has a readable message; the outcome goes
    back to the caller as it is. *)
Theorem legacy_fetch_reports (c : Ctx) (href : string)
        (net : FetchInput -> FetchInit -> Outcome) (t0 t1 : Q)
        (input : FetchInput) (init : option FetchInit) :
  let result :=
    LegacyFetch.patch_fetch c href (native_fetch net) t0 t1 input init in
  (forall r,
      net input (init_or_empty init) = Resolved r ->
      exists d,
        result = ([d], Resolved r) /\
        trigger_of d = JStr "api_call" /\
        metrics_legacy_path c d /\
        obj_get (api_of d) "status" = JNum (inject_Z (status r))) /\
  (forall err msg,
      net input (init_or_empty init) = Rejected err ->
      get_prop err "message" = Some msg ->
      exists d,
        result = ([d], Rejected err) /\
        trigger_of d = JStr "api_call_error" /\
        metrics_legacy_path c d /\
        obj_get (api_of d) "status" = JNull /\
        obj_get (api_of d) "error" = msg).
Proof.
  cbv zeta. unfold LegacyFetch.patch_fetch, native_fetch, init_or_empty.
  split.
  - intros r H. rewrite H. eexists. split; [reflexivity|].
    unfold trigger_of, api_of.
    rewrite !Legacy_sendMetrics_get by discriminate.
    split; [reflexivity|]. split; [apply Legacy_sendMetrics_path|reflexivity].
  - intros err msg H Hm. rewrite H, Hm. eexists. split; [reflexivity|].
    unfold trigger_of, api_of.
    rewrite !Legacy_sendMetrics_get by discriminate.
    split; [reflexivity|]. split; [apply Legacy_sendMetrics_path|].
    split; reflexivity.
Qed.

Lemma legacy_fetch_reports_witness :
  exists d,
    LegacyFetch.patch_fetch example_ctx "http://page.test/"
      (native_fetch (fun _ _ => Resolved (mkResponse 503)))
      0 25 (InputString "/api/orders") None
    = ([d], Resolved (mkResponse 503)) /\
    trigger_of d = JStr "api_call".
Proof.
  destruct (proj1 (legacy_fetch_reports example_ctx "http://page.test/"
                     (fun _ _ => Resolved (mkResponse 503))
                     0 25 (InputString "/api/orders") None)
                  (mkResponse 503) eq_refl)
    as (d & Hd & Ht & _).
  exists d. split; [exact Hd|exact Ht].
Defined.

End LegacyFetchFacts.

Module SchedulerFacts.
Import Scheduler.

Local Open Scope nat_scope.

(** **** Counting *)

Lemma count_if_app {A : Type} (q : A -> bool) (l1 l2 : list A) :
  count_if q (l1 ++ l2) = count_if q l1 + count_if q l2.
Proof. unfold count_if. now rewrite filter_app, length_app. Qed.

Lemma count_if_filter {A : Type} (q r : A -> bool) (l : list A) :
  count_if q (filter r l) = count_if (fun x => andb (q x) (r x)) l.
Proof.
  unfold count_if. induction l as [|a l IH]; simpl; [reflexivity|].
  destruct (r a); simpl; destruct (q a); simpl; auto.
Qed.

Lemma count_if_map {A B : Type} (f : A -> B) (q : B -> bool) (l : list A) :
  count_if q (map f l) = count_if (fun x => q (f x)) l.
Proof.
  unfold count_if. induction l as [|a l IH]; simpl; [reflexivity|].
  destruct (q (f a)); simpl; auto.
Qed.

Lemma count_if_ext_in {A : Type} (q q' : A -> bool) (l : list A) :
  (forall x, In x l -> q x = q' x) -> count_if q l = count_if q' l.
Proof.
  unfold count_if. intros H. now rewrite (filter_ext_in q q' l H).
Qed.

Lemma count_if_none {A : Type} (q : A -> bool) (l : list A) :
  (forall x, In x l -> q x = false) -> count_if q l = 0.
Proof.
  intros H. rewrite (count_if_ext_in q (fun _ => false) l H).
  unfold count_if. clear H. induction l; simpl; auto.
Qed.

(** **** One millisecond, in closed form *)

Lemma fold_run_callback (now : nat) (ready : list Timer) :
  forall l,
    fold_left (run_callback now) ready l
    = mkLoop (timers l) (sent l ++ map (fired now) ready).
Proof.
  induction ready as [|t ready IH]; intros l; simpl.
  - rewrite app_nil_r. now destruct l.
  - rewrite IH. unfold run_callback, sendMetrics_at, fired. simpl.
    now rewrite <- app_assoc.
Qed.

Lemma fold_dispatch (now : nat) (es : list PageEvent) :
  forall l,
    fold_left (dispatch now) es l
    = mkLoop (timers l ++ flat_map (scheduled_by now) es)
             (sent l ++ flat_map (sent_by now) es).
Proof.
  induction es as [|e es IH]; intros l; simpl.
  - rewrite !app_nil_r. now destruct l.
  - rewrite IH.
    destruct e as [|[]|[]|]; simpl;
      rewrite <- ?app_assoc; reflexivity.
Qed.

Lemma tick_closed (now : nat) (es : list PageEvent) (l : Loop) :
  tick now es l
  = mkLoop
      ((filter (fun t => negb (is_due now t)) (timers l)
        ++ flat_map (rearm now) (filter (is_due now) (timers l)))
       ++ flat_map (scheduled_by now) es)
      ((sent l ++ map (fired now) (filter (is_due now) (timers l)))
       ++ flat_map (sent_by now) es).
Proof.
  unfold tick, fire_due. rewrite fold_run_callback, fold_dispatch. reflexivity.
Qed.

(** **** What a millisecond does to the counts *)

Ltac bool_cases :=
  repeat match goal with
    | |- context [Nat.leb ?a ?b] => destruct (Nat.leb_spec a b)
    | |- context [Nat.ltb ?a ?b] => destruct (Nat.ltb_spec a b)
    | |- context [Nat.eqb ?a ?b] => destruct (Nat.eqb_spec a b)
    end; simpl.

Ltac mod_facts x :=
  let q := fresh "q" in
  let r := fresh "r" in
  pose proof (Nat.div_mod_eq x heartbeat_ms);
  pose proof (Nat.mod_upper_bound x heartbeat_ms ltac:(unfold heartbeat_ms; lia));
  set (q := x / heartbeat_ms) in *; set (r := x mod heartbeat_ms) in *;
  clearbody q r.

Lemma waiting_count (cb : Callback) (d now : nat) (ts : list Timer) :
  count_if (due_in cb d) (filter (fun t => negb (is_due now t)) ts)
  = if Nat.leb d now then 0 else count_if (due_in cb d) ts.
Proof.
  rewrite count_if_filter. unfold due_in, is_due.
  destruct (Nat.leb_spec d now).
  - apply count_if_none. intros t _.
    destruct (Callback_eqb (callback t) cb); simpl; auto.
    bool_cases; auto; lia.
  - apply count_if_ext_in. intros t _.
    destruct (Callback_eqb (callback t) cb); simpl; auto.
    bool_cases; auto; lia.
Qed.

Lemma rearmed_count (cb : Callback) (d now : nat) (ts : list Timer) :
  Forall (fun t => now <= due t) ts ->
  Forall interval_only_heartbeat ts ->
  count_if (due_in cb d) (flat_map (rearm now) (filter (is_due now) ts))
  = if andb (Callback_eqb SendHeartbeat cb) (Nat.eqb d (now + heartbeat_ms))
    then count_if (due_in SendHeartbeat now) ts else 0.
Proof.
  intros Ha Hp. induction ts as [|t ts IH]; simpl.
  - now destruct (andb _ _).
  - inversion Ha as [|? ? Ht Ha']; inversion Hp as [|? ? Hi Hp']; subst.
    specialize (IH Ha' Hp').
    unfold count_if in *. unfold is_due at 1.
    destruct (Nat.leb_spec (due t) now) as [Hd|Hd].
    + simpl. rewrite filter_app, length_app, IH. clear IH.
      unfold rearm, interval_only_heartbeat in *. rewrite Hi.
      unfold due_in.
      destruct (callback t), cb; simpl; bool_cases; simpl; lia.
    + rewrite IH. clear IH. simpl. unfold due_in.
      destruct (callback t), cb; simpl; bool_cases; simpl; lia.
Qed.

Lemma scheduled_count (cb : Callback) (d now : nat) (es : list PageEvent) :
  count_if (due_in cb d) (flat_map (scheduled_by now) es)
  = match cb with
    | EmitSpaNavigation => if Nat.eqb d (now + 300) then navigations es else 0
    | EmitPageLoad => if Nat.eqb d (now + 1000) then loads es else 0
    | SendHeartbeat => 0
    end.
Proof.
  unfold navigations, loads, count_if.
  induction es as [|e es IH]; simpl.
  - destruct cb; try reflexivity; now destruct (Nat.eqb _ _).
  - rewrite filter_app, length_app, IH. clear IH.
    unfold due_in.
    destruct e as [|[]|[]|], cb; simpl; bool_cases; simpl; lia.
Qed.

Lemma fired_count (cb : Callback) (d now : nat) (ts : list Timer) :
  Forall (fun t => now <= due t) ts ->
  count_if (sent_in (trigger_name cb) d) (map (fired now) (filter (is_due now) ts))
  = if Nat.eqb d now then count_if (due_in cb now) ts else 0.
Proof.
  intros Ha. rewrite count_if_map, count_if_filter.
  unfold sent_in, fired, due_in, is_due. simpl.
  destruct (Nat.eqb_spec d now) as [->|Hne].
  - apply count_if_ext_in. intros t Ht.
    rewrite Forall_forall in Ha. specialize (Ha t Ht).
    rewrite Nat.eqb_refl. simpl.
    replace (String.eqb (trigger_name (callback t)) (trigger_name cb))
      with (Callback_eqb (callback t) cb)
      by (destruct (callback t), cb; reflexivity).
    destruct (Callback_eqb (callback t) cb); simpl; auto.
    bool_cases; auto; lia.
  - apply count_if_none. intros t _.
    destruct (Nat.eqb_spec now d); [congruence|reflexivity].
Qed.

Lemma fired_no_environment (d now : nat) (ts : list Timer) :
  count_if (sent_in "environment" d) (map (fired now) ts) = 0.
Proof.
  rewrite count_if_map. apply count_if_none. intros t _.
  unfold sent_in, fired. simpl.
  destruct (callback t); simpl; now rewrite andb_false_r.
Qed.

Lemma immediate_count (trigger : string) (d now : nat) (es : list PageEvent) :
  count_if (sent_in trigger d) (flat_map (sent_by now) es)
  = if andb (Nat.eqb d now)
            (orb (String.eqb trigger "environment")
                 (String.eqb trigger "heartbeat"))
    then loads es else 0.
Proof.
  unfold loads, count_if.
  induction es as [|e es IH]; simpl.
  - now destruct (andb _ _).
  - rewrite filter_app, length_app, IH. clear IH.
    unfold sent_in.
    destruct e as [|[]|[]|];
      cbn [sent_by filter List.length is_load Nat.add]; try reflexivity.
    unfold sent_in. cbn [sent_at sent_trigger].
    rewrite (String.eqb_sym "environment"), (String.eqb_sym "heartbeat").
    destruct (String.eqb trigger "environment") eqn:E1.
    + apply String.eqb_eq in E1. subst trigger.
      cbn [String.eqb Ascii.eqb Bool.eqb orb andb].
      bool_cases; simpl; lia.
    + destruct (String.eqb trigger "heartbeat") eqn:E2;
        bool_cases; simpl; lia.
Qed.

Lemma pending_step (events : nat -> list PageEvent) (n : nat) (cb : Callback)
      (d : nat) :
  (if Nat.leb d n then 0 else expected_pending events n cb d)
  + (if andb (Callback_eqb SendHeartbeat cb) (Nat.eqb d (n + heartbeat_ms))
     then expected_pending events n SendHeartbeat n else 0)
  + match cb with
    | EmitSpaNavigation =>
        if Nat.eqb d (n + 300) then navigations (events n) else 0
    | EmitPageLoad => if Nat.eqb d (n + 1000) then loads (events n) else 0
    | SendHeartbeat => 0
    end
  = expected_pending events (S n) cb d.
Proof.
  destruct cb; cbn [Callback_eqb andb expected_pending].
  - destruct (Nat.eqb_spec d (n + 1000)) as [->|Hd].
    + replace (n + 1000 - 1000) with n by lia. bool_cases; lia.
    + bool_cases; lia.
  - destruct (Nat.eqb_spec d (n + 300)) as [->|Hd].
    + replace (n + 300 - 300) with n by lia. bool_cases; lia.
    + bool_cases; lia.
  - mod_facts d. mod_facts n.
    bool_cases; unfold heartbeat_ms in *; lia.
Qed.

Lemma sent_step (events : nat -> list PageEvent) (n : nat) (cb : Callback)
      (d : nat) :
  expected_sent events n (trigger_name cb) d
  + (if Nat.eqb d n then expected_pending events n cb n else 0)
  + (if andb (Nat.eqb d n)
             (orb (String.eqb (trigger_name cb) "environment")
                  (String.eqb (trigger_name cb) "heartbeat"))
     then loads (events n) else 0)
  = expected_sent events (S n) (trigger_name cb) d.
Proof.
  unfold expected_sent.
  destruct cb;
    cbn [trigger_name String.eqb Ascii.eqb Bool.eqb orb andb expected_pending];
    rewrite ?andb_false_r.
  - destruct (Nat.eqb_spec d n) as [->|Hd]; bool_cases; lia.
  - destruct (Nat.eqb_spec d n) as [->|Hd]; bool_cases; lia.
  - destruct (Nat.eqb_spec d n) as [->|Hd].
    + mod_facts n. bool_cases; unfold heartbeat_ms in *; lia.
    + bool_cases; lia.
Qed.

Lemma sent_step_environment (events : nat -> list PageEvent) (n d : nat) :
  expected_sent events n "environment" d
  + (if andb (Nat.eqb d n) true then loads (events n) else 0)
  = expected_sent events (S n) "environment" d.
Proof.
  unfold expected_sent.
  cbn [String.eqb Ascii.eqb Bool.eqb]. rewrite andb_true_r.
  destruct (Nat.eqb_spec d n) as [->|Hd]; bool_cases; lia.
Qed.

(** **** The invariant *)

Lemma evaluated_settled (events : nat -> list PageEvent) :
  settled events 0 evaluated.
Proof.
  unfold settled, evaluated, setInterval.
  cbn [timers sent app Nat.add].
  split; [constructor; [cbn [due]; lia|constructor]|].
  split; [constructor; [reflexivity|constructor]|].
  split.
  - intros cb d. unfold pending, count_if, due_in, expected_pending.
    cbn [timers filter callback due].
    destruct cb; cbn [Callback_eqb andb List.length]; bool_cases; try lia;
      mod_facts d; unfold heartbeat_ms in *; lia.
  - intros trigger d _. unfold sent_count, expected_sent, count_if.
    cbn [sent filter List.length]. now destruct (Nat.ltb_spec d 0).
Qed.

Lemma tick_settled (events : nat -> list PageEvent) (n : nat) (l : Loop) :
  settled events n l -> settled events (S n) (tick n (events n) l).
Proof.
  intros (Ha & Hp & Hpend & Hsent).
  rewrite tick_closed. unfold settled. cbn [timers sent].
  split; [|split; [|split]].
  - rewrite !Forall_app. repeat split; apply Forall_forall; intros t Ht.
    + apply filter_In in Ht. destruct Ht as [_ Ht].
      unfold is_due in Ht. apply negb_true_iff, Nat.leb_gt in Ht. lia.
    + apply in_flat_map in Ht. destruct Ht as (t0 & H0 & Ht).
      apply filter_In in H0. destruct H0 as [H0 _].
      rewrite Forall_forall in Hp. specialize (Hp t0 H0).
      unfold rearm in Ht. unfold interval_only_heartbeat in Hp.
      destruct (period t0) as [p|]; [|destruct Ht].
      destruct Ht as [<-|[]]. cbn [due].
      destruct (callback t0); inversion Hp. unfold heartbeat_ms. lia.
    + apply in_flat_map in Ht. destruct Ht as (e & _ & Ht).
      destruct e as [|[]|[]|]; simpl in Ht;
        try (destruct Ht as [<-|[]]; cbn [due]; lia); destruct Ht.
  - rewrite !Forall_app. repeat split; apply Forall_forall; intros t Ht.
    + apply filter_In in Ht. destruct Ht as [Ht _].
      rewrite Forall_forall in Hp. now apply Hp.
    + apply in_flat_map in Ht. destruct Ht as (t0 & H0 & Ht).
      apply filter_In in H0. destruct H0 as [H0 _].
      rewrite Forall_forall in Hp. specialize (Hp t0 H0).
      unfold rearm in Ht. unfold interval_only_heartbeat in *.
      destruct (period t0) as [p|]; [|destruct Ht].
      destruct Ht as [<-|[]]. cbn [period callback]. exact Hp.
    + apply in_flat_map in Ht. destruct Ht as (e & _ & Ht).
      destruct e as [|[]|[]|]; simpl in Ht;
        try (destruct Ht as [<-|[]]; reflexivity); destruct Ht.
  - intros cb d. unfold pending. cbn [timers].
    rewrite !count_if_app, waiting_count, (rearmed_count _ _ _ _ Ha Hp),
      scheduled_count.
    change (count_if (due_in cb d) (timers l)) with (pending cb d l).
    change (count_if (due_in SendHeartbeat n) (timers l))
      with (pending SendHeartbeat n l).
    rewrite !Hpend. apply pending_step.
  - intros trigger d Hin. unfold sent_count. cbn [sent].
    rewrite !count_if_app.
    change (count_if (sent_in trigger d) (sent l))
      with (sent_count trigger d l).
    rewrite (Hsent trigger d Hin). rewrite immediate_count.
    assert (Htimer : forall cb,
               expected_sent events n (trigger_name cb) d
               + count_if (sent_in (trigger_name cb) d)
                   (map (fired n) (filter (is_due n) (timers l)))
               + (if andb (Nat.eqb d n)
                          (orb (String.eqb (trigger_name cb) "environment")
                               (String.eqb (trigger_name cb) "heartbeat"))
                  then loads (events n) else 0)
               = expected_sent events (S n) (trigger_name cb) d).
    { intros cb. rewrite (fired_count _ _ _ _ Ha).
      change (count_if (due_in cb n) (timers l)) with (pending cb n l).
      rewrite Hpend. apply sent_step. }
    destruct Hin as [<-|[<-|[<-|[<-|[]]]]].
    + exact (Htimer EmitSpaNavigation).
    + exact (Htimer EmitPageLoad).
    + rewrite fired_no_environment, Nat.add_0_r.
      apply sent_step_environment.
    + exact (Htimer SendHeartbeat).
Qed.

Lemma run_settled (events : nat -> list PageEvent) (n : nat) :
  settled events n (run events n).
Proof.
  induction n as [|n IH]; [apply evaluated_settled|].
  cbn [run]. now apply tick_settled.
Qed.

(** What the timers and the load listeners send, millisecond by
    millisecond: an environment envelope for every load event; a page_load
    envelope one second after every load event; a spa_navigation envelope
    300 ms after every popstate and every history call that returned (none
    for a call that threw); a heartbeat envelope for every load event and
    one at every multiple of 15 seconds after the evaluation of the
    script. *)
Theorem scheduled_envelopes (events : nat -> list PageEvent) (n d : nat) :
  d < n ->
  sent_count "environment" d (run events n) = loads (events d) /\
  sent_count "page_load" d (run events n)
  = (if Nat.leb 1000 d then loads (events (d - 1000)) else 0) /\
  sent_count "spa_navigation" d (run events n)
  = (if Nat.leb 300 d then navigations (events (d - 300)) else 0) /\
  sent_count "heartbeat" d (run events n)
  = loads (events d)
    + (if andb (Nat.ltb 0 d) (Nat.eqb (d mod heartbeat_ms) 0) then 1 else 0).
Proof.
  intros Hd.
  destruct (run_settled events n) as (_ & _ & _ & Hsent).
  assert (Hlt : Nat.ltb d n = true) by now apply Nat.ltb_lt.
  repeat split; rewrite Hsent by (simpl; auto 6);
    unfold expected_sent; rewrite Hlt; reflexivity.
Qed.

Lemma scheduled_envelopes_witness :
  let events := fun t => if Nat.eqb t 2 then [Load; PushState false] else [] in
  sent_count "environment" 2 (run events 5) = loads (events 2) /\
  sent_count "page_load" 2 (run events 5)
  = (if Nat.leb 1000 2 then loads (events (2 - 1000)) else 0) /\
  sent_count "spa_navigation" 2 (run events 5)
  = (if Nat.leb 300 2 then navigations (events (2 - 300)) else 0) /\
  sent_count "heartbeat" 2 (run events 5)
  = loads (events 2)
    + (if andb (Nat.ltb 0 2) (Nat.eqb (2 mod heartbeat_ms) 0) then 1 else 0).
Proof.
  intros events. apply (scheduled_envelopes events 5 2). lia.
Defined.

(** A page that loads in millisecond 2 and calls pushState in millisecond
    5: environment and heartbeat at once, spa_navigation at 305, page_load
    at 1002. *)
Example first_second_of_a_page :
  let events := fun t =>
    if Nat.eqb t 2 then [Load]
    else if Nat.eqb t 5 then [PushState false; ReplaceState true] else [] in
  sent (run events 1003)
  = [mkSent 2 "environment"; mkSent 2 "heartbeat";
     mkSent 305 "spa_navigation"; mkSent 1002 "page_load"].
Proof. vm_compute. reflexivity. Qed.

End SchedulerFacts.
